(** * OncoStaging: the feature-extraction and TNM staging pipeline

    A shallow embedding of the TypeScript sources of the Next.js application:

    - [lib/staging.ts]            -> module [Staging]
    - [lib/utils.ts]              -> module [Utils] (on top of [RegExp])
    - [lib/document-processor.ts] -> module [DocumentProcessor]
    - [components/ProcessingSteps.tsx], [app/page.tsx] -> module [Page]

    Conventions of the embedding.

    - A JavaScript [number] is an IEEE double.  Every finite double is a
      rational, and the comparisons [<], [<=], [>], [===] of doubles are the
      comparisons of these rationals, so a number is modelled by [JS.number]:
      a rational, one of the two infinities, or NaN.  Arithmetic on finite
      numbers is exact here (the rounding of doubles is not modelled).
    - A JavaScript string is modelled by a [string] of 8-bit characters.  The
      character operations ([toLowerCase], [trim], the classes of regular
      expressions) are those of JavaScript on code units below 128; literals
      of the source that hold other characters are kept as their UTF-8 bytes.
    - A function that can throw returns an [outcome]; the state of the
      [DocumentProcessor] object is passed explicitly. *)

From Stdlib Require Import String Ascii List ZArith QArith Bool Lia.
Import ListNotations.
Local Open Scope string_scope.
Local Open Scope bool_scope.
Local Close Scope Q_scope.

(** ** The JavaScript runtime: numbers and strings *)

Module JS.

(** *** Numbers *)

Inductive number : Type :=
| NaN
| NegInfinity
| Finite (q : Q)
| PosInfinity.

(** A finite literal, kept in lowest terms. *)
Definition fin (q : Q) : number := Finite (Qred q).

Declare Scope js_scope.
Delimit Scope js_scope with js.
Bind Scope js_scope with number.

(** [a <= b] *)
Definition le (a b : number) : bool :=
  match a, b with
  | NaN, _ | _, NaN => false
  | NegInfinity, _ => true
  | _, PosInfinity => true
  | Finite x, Finite y => Qle_bool x y
  | _, _ => false
  end.

(** [a < b] *)
Definition lt (a b : number) : bool :=
  match a, b with
  | NaN, _ | _, NaN => false
  | NegInfinity, NegInfinity => false
  | NegInfinity, _ => true
  | PosInfinity, _ => false
  | _, PosInfinity => true
  | Finite x, Finite y => negb (Qle_bool y x)
  | Finite _, NegInfinity => false
  end.

(** [a > b] *)
Definition gt (a b : number) : bool := lt b a.

(** [a === b] on numbers *)
Definition strict_eq (a b : number) : bool :=
  match a, b with
  | NegInfinity, NegInfinity => true
  | PosInfinity, PosInfinity => true
  | Finite x, Finite y => Qeq_bool x y
  | _, _ => false
  end.

Infix "<=?" := le : js_scope.
Infix "<?" := lt : js_scope.
Infix ">?" := gt (at level 70) : js_scope.
Infix "===" := strict_eq (at level 70) : js_scope.

(** The sign of a rational, used by the arithmetic on infinities. *)
Definition Qsign (q : Q) : comparison := (0 ?= q)%Q.

Definition neg (a : number) : number :=
  match a with
  | NaN => NaN
  | NegInfinity => PosInfinity
  | PosInfinity => NegInfinity
  | Finite q => fin (- q)%Q
  end.

(** [a + b] *)
Definition add (a b : number) : number :=
  match a, b with
  | NaN, _ | _, NaN => NaN
  | PosInfinity, NegInfinity | NegInfinity, PosInfinity => NaN
  | PosInfinity, _ | _, PosInfinity => PosInfinity
  | NegInfinity, _ | _, NegInfinity => NegInfinity
  | Finite x, Finite y => fin (x + y)%Q
  end.

(** [a - b] *)
Definition sub (a b : number) : number := add a (neg b).

Definition signed_inf (c : comparison) : number :=
  match c with
  | Lt => PosInfinity
  | Gt => NegInfinity
  | Eq => NaN
  end.

(** [a * b] *)
Definition mul (a b : number) : number :=
  match a, b with
  | NaN, _ | _, NaN => NaN
  | Finite x, Finite y => fin (x * y)%Q
  | Finite x, PosInfinity | PosInfinity, Finite x => signed_inf (Qsign x)
  | Finite x, NegInfinity | NegInfinity, Finite x => signed_inf (Qsign (- x)%Q)
  | PosInfinity, PosInfinity | NegInfinity, NegInfinity => PosInfinity
  | PosInfinity, NegInfinity | NegInfinity, PosInfinity => NegInfinity
  end.

(** [a / b]; the sign of a zero is not tracked, so [x / 0] takes the sign of
    [x]. *)
Definition div (a b : number) : number :=
  match a, b with
  | NaN, _ | _, NaN => NaN
  | Finite x, Finite y =>
      if Qeq_bool y 0%Q then signed_inf (Qsign x) else fin (x / y)%Q
  | Finite _, _ => fin 0%Q
  | PosInfinity, Finite y =>
      if Qle_bool 0%Q y then PosInfinity else NegInfinity
  | NegInfinity, Finite y =>
      if Qle_bool 0%Q y then NegInfinity else PosInfinity
  | _, _ => NaN
  end.

(** [Math.max(a, b)] and [Math.min(a, b)]: NaN is absorbing. *)
Definition max2 (a b : number) : number :=
  match a, b with
  | NaN, _ | _, NaN => NaN
  | _, _ => if le a b then b else a
  end.

Definition min2 (a b : number) : number :=
  match a, b with
  | NaN, _ | _, NaN => NaN
  | _, _ => if le a b then a else b
  end.

(** [Math.max(...l)]: the maximum of no argument is [-Infinity]. *)
Definition Math_max (l : list number) : number :=
  fold_left max2 l NegInfinity.

(** An integer literal. *)
Definition int (z : Z) : number := Finite (inject_Z z).


(** *** Strings *)

Definition is_upper (c : ascii) : bool :=
  let n := nat_of_ascii c in (65 <=? n)%nat && (n <=? 90)%nat.

Definition is_lower (c : ascii) : bool :=
  let n := nat_of_ascii c in (97 <=? n)%nat && (n <=? 122)%nat.

Definition is_digit (c : ascii) : bool :=
  let n := nat_of_ascii c in (48 <=? n)%nat && (n <=? 57)%nat.

(** White space and line terminators: TAB, LF, VT, FF, CR and space. *)
Definition is_space (c : ascii) : bool :=
  let n := nat_of_ascii c in
  ((9 <=? n)%nat && (n <=? 13)%nat) || (n =? 32)%nat.

(** [\w]: letters, digits and the underscore. *)
Definition is_word (c : ascii) : bool :=
  is_upper c || is_lower c || is_digit c || (nat_of_ascii c =? 95)%nat.

Definition lower_char (c : ascii) : ascii :=
  if is_upper c then ascii_of_nat (nat_of_ascii c + 32) else c.

Definition upper_char (c : ascii) : ascii :=
  if is_lower c then ascii_of_nat (nat_of_ascii c - 32) else c.

(** A word of lower-case letters. *)
Fixpoint all_lower (s : string) : bool :=
  match s with
  | EmptyString => true
  | String c s' => is_lower c && all_lower s'
  end.

(** [s.toLowerCase()] *)
Fixpoint toLowerCase (s : string) : string :=
  match s with
  | EmptyString => EmptyString
  | String c s' => String (lower_char c) (toLowerCase s')
  end.

(** [s.startsWith(p)] *)
Definition startsWith (s p : string) : bool := String.prefix p s.

(** [s.includes(sub)] *)
Fixpoint includes (s sub : string) : bool :=
  String.prefix sub s ||
  match s with
  | EmptyString => false
  | String _ s' => includes s' sub
  end.

(** [s.trimStart()], [s.trimEnd()] and [s.trim()] *)
Fixpoint trimStart (s : string) : string :=
  match s with
  | EmptyString => EmptyString
  | String c s' => if is_space c then trimStart s' else s
  end.

Fixpoint trimEnd (s : string) : string :=
  match s with
  | EmptyString => EmptyString
  | String c s' =>
      match trimEnd s' with
      | EmptyString => if is_space c then EmptyString else String c EmptyString
      | r => String c r
      end
  end.

Definition trim (s : string) : string := trimEnd (trimStart s).

(** [s.slice(from, to)] for indices in range. *)
Definition slice (s : string) (from to : nat) : string :=
  String.substring from (to - from) s.

(** [s.split(sep)] for a separator of one character. *)
Fixpoint split_char (sep : ascii) (s : string) : list string :=
  match s with
  | EmptyString => [EmptyString]
  | String c s' =>
      match split_char sep s' with
      | [] => [String c EmptyString]
      | w :: ws =>
          if Ascii.eqb c sep then EmptyString :: w :: ws
          else String c w :: ws
      end
  end.

(** [l.join(sep)] *)
Fixpoint join (sep : string) (l : list string) : string :=
  match l with
  | [] => EmptyString
  | [x] => x
  | x :: xs => x ++ sep ++ join sep xs
  end.

(** [l.includes(x)] on an array of strings. *)
Definition array_includes (l : list string) (x : string) : bool :=
  existsb (String.eqb x) l.

(** *** Objects used as dictionaries

    [o[k]] on an object literal whose values are strings: an own property
    gives its string, a key that [Object.prototype] defines gives the
    inherited member (a function or an object, never a string), any other
    key gives [undefined]. *)

Inductive value : Type :=
| Str (s : string)
| Inherited (key : string)
| Undefined.

Definition prototype_keys : list string :=
  [ "constructor"; "__proto__"; "hasOwnProperty"; "isPrototypeOf";
    "propertyIsEnumerable"; "toLocaleString"; "toString"; "valueOf";
    "__defineGetter__"; "__defineSetter__"; "__lookupGetter__";
    "__lookupSetter__" ].

Fixpoint own (o : list (string * string)) (k : string) : option string :=
  match o with
  | [] => None
  | (k', v) :: o' => if String.eqb k k' then Some v else own o' k
  end.

Definition get (o : list (string * string)) (k : string) : value :=
  match own o k with
  | Some v => Str v
  | None => if array_includes prototype_keys k then Inherited k else Undefined
  end.

(** [v || d] where [d] is a string: the empty string and [undefined] are
    falsy, an object is truthy. *)
Definition or_else (v : value) (d : string) : value :=
  match v with
  | Str EmptyString => Str d
  | Undefined => Str d
  | _ => v
  end.

(** [v === s] for a string [s]. *)
Definition is_str (v : value) (s : string) : bool :=
  match v with
  | Str s' => String.eqb s' s
  | _ => false
  end.

(** [l.includes(v)] for an array [l] of strings. *)
Definition among (l : list string) (v : value) : bool :=
  existsb (is_str v) l.

End JS.

(** ** [lib/staging.ts] *)

Module Staging.
Import JS.

(** [interface MedicalFeatures] of [types/medical.ts]. *)
Record MedicalFeatures : Type := {
  cancer_type : string;
  tumor_size_cm : number;
  lymph_nodes_involved : number;
  distant_metastasis : bool;
  liver_invasion : bool;
  tumor_depth : string;
  confidence_scores : list (string * number);
  extracted_values : list (string * list string)
}.

(** [interface TNMStaging]; the optional [substage] is never set.  [T] and
    [description] are read from object literals, so they are [value]s. *)
Record TNMStaging : Type := {
  T : value;
  N : string;
  M : string;
  stage : string;
  description : value
}.

Definition getGallbladderStageDescription (stage : string) : value :=
  let descriptions :=
    [ ("Stage I", "Early stage cancer confined to gallbladder wall");
      ("Stage II", "Tumor has reached outer layer of gallbladder");
      ("Stage IIIA", "Tumor has spread to nearby lymph nodes");
      ("Stage IIIB", "Tumor has invaded liver or nearby organs");
      ("Stage IVA", "Tumor has spread to major blood vessels or multiple organs");
      ("Stage IVB", "Advanced cancer with distant metastasis") ] in
  or_else (get descriptions stage) "Staging information not available".

Definition getEsophagealStageDescription (stage : string) : value :=
  let descriptions :=
    [ ("Stage I", "Early stage confined to inner layer of esophagus");
      ("Stage II", "Tumor has reached deeper layers of esophagus");
      ("Stage III", "Spread to nearby lymph nodes");
      ("Stage IVA", "Invaded nearby organs");
      ("Stage IVB", "Metastasis to distant organs") ] in
  or_else (get descriptions stage) stage.

Definition getBreastStageDescription (stage : string) : value :=
  let descriptions :=
    [ ("Stage I", "Early stage, small tumor, no lymph node spread");
      ("Stage II", "Moderate-sized tumor or limited lymph node involvement");
      ("Stage III", "Large tumor or extensive lymph node involvement");
      ("Stage IV", "Metastasis to distant organs") ] in
  or_else (get descriptions stage) "Staging information not available".

Definition getLungStageDescription (stage : string) : value :=
  let descriptions :=
    [ ("Stage I", "Early stage confined to lung only");
      ("Stage II", "Large tumor or spread to nearby lymph nodes");
      ("Stage III", "Locally advanced, spread within chest");
      ("Stage IV", "Metastasis to distant organs") ] in
  or_else (get descriptions stage) "Staging information not available".

Definition getColorectalStageDescription (stage : string) : value :=
  let descriptions :=
    [ ("Stage I", "Early stage confined to bowel wall");
      ("Stage II", "Penetrated bowel wall but no lymph node spread");
      ("Stage III", "Spread to nearby lymph nodes");
      ("Stage IV", "Metastasis to distant organs") ] in
  or_else (get descriptions stage) "Staging information not available".

Definition getHeadNeckStageDescription (stage : string) : value :=
  let descriptions :=
    [ ("Stage I", "Small tumor, locally confined");
      ("Stage II", "Large tumor but no lymph node spread");
      ("Stage III", "Spread to nearby lymph nodes");
      ("Stage IVA", "Locally advanced disease");
      ("Stage IVC", "Distant metastasis") ] in
  or_else (get descriptions stage) stage.

Definition stageGallbladderCancer (features : MedicalFeatures) : TNMStaging :=
  let T :=
    if liver_invasion features then "T3"
    else if (tumor_size_cm features >? int 2)%js then "T2"
    else if (tumor_size_cm features >? int 0)%js then "T1"
    else "Tx" in
  let N :=
    if (lymph_nodes_involved features === int 0)%js then "N0"
    else if (lymph_nodes_involved features <=? int 3)%js then "N1"
    else "N2" in
  let M := if distant_metastasis features then "M1" else "M0" in
  let stage :=
    if M =? "M1" then "Stage IVB"
    else if (T =? "T3") && negb (N =? "N0") then "Stage IVA"
    else if T =? "T3" then "Stage IIIB"
    else if (T =? "T2") && (N =? "N0") then "Stage II"
    else if array_includes ["T1"; "T2"] T && negb (N =? "N0") then "Stage IIIA"
    else if (T =? "T1") && (N =? "N0") then "Stage I"
    else "Stage Unknown" in
  {| T := Str T; N := N; M := M; stage := stage;
     description := getGallbladderStageDescription stage |}.

Definition stageEsophagealCancer (features : MedicalFeatures) : TNMStaging :=
  let depthToT :=
    [ ("mucosa", "T1");
      ("submucosa", "T1b");
      ("muscularis", "T2");
      ("adventitia", "T3");
      ("adjacent structures", "T4") ] in
  let T := or_else (get depthToT (toLowerCase (tumor_depth features))) "Tx" in
  let N :=
    if (lymph_nodes_involved features === int 0)%js then "N0"
    else if (lymph_nodes_involved features <=? int 2)%js then "N1"
    else if (lymph_nodes_involved features <=? int 6)%js then "N2"
    else "N3" in
  let M := if distant_metastasis features then "M1" else "M0" in
  let stage :=
    if M =? "M1" then "Stage IVB"
    else if is_str T "T4" || (N =? "N3") then "Stage IVA"
    else if among ["T2"; "T3"] T && array_includes ["N0"; "N1"] N
      then "Stage II"
    else if is_str T "T1" && (N =? "N0") then "Stage I"
    else "Stage III" in
  {| T := T; N := N; M := M; stage := stage;
     description := getEsophagealStageDescription stage |}.

Definition stageBreastCancer (features : MedicalFeatures) : TNMStaging :=
  let T :=
    if (tumor_size_cm features <=? int 2)%js then "T1"
    else if (tumor_size_cm features <=? int 5)%js then "T2"
    else "T3" in
  let N :=
    if (lymph_nodes_involved features === int 0)%js then "N0"
    else if (lymph_nodes_involved features <=? int 3)%js then "N1"
    else if (lymph_nodes_involved features <=? int 9)%js then "N2"
    else "N3" in
  let M := if distant_metastasis features then "M1" else "M0" in
  let stage :=
    if M =? "M1" then "Stage IV"
    else if (T =? "T1") && (N =? "N0") then "Stage I"
    else if array_includes ["T1"; "T2"] T && (N =? "N1") then "Stage II"
    else if (T =? "T3") || array_includes ["N2"; "N3"] N then "Stage III"
    else "Stage Unknown" in
  {| T := Str T; N := N; M := M; stage := stage;
     description := getBreastStageDescription stage |}.

Definition stageLungCancer (features : MedicalFeatures) : TNMStaging :=
  let T :=
    if (tumor_size_cm features <=? int 3)%js then "T1"
    else if (tumor_size_cm features <=? int 5)%js then "T2"
    else if (tumor_size_cm features <=? int 7)%js then "T3"
    else "T4" in
  let N :=
    if (lymph_nodes_involved features === int 0)%js then "N0"
    else if (lymph_nodes_involved features <=? int 3)%js then "N1"
    else "N2" in
  let M := if distant_metastasis features then "M1" else "M0" in
  let stage :=
    if M =? "M1" then "Stage IV"
    else if (T =? "T1") && (N =? "N0") then "Stage I"
    else if array_includes ["T2"; "T3"] T && array_includes ["N0"; "N1"] N
      then "Stage II"
    else if array_includes ["T3"; "T4"] T || (N =? "N2") then "Stage III"
    else "Stage Unknown" in
  {| T := Str T; N := N; M := M; stage := stage;
     description := getLungStageDescription stage |}.

Definition stageColorectalCancer (features : MedicalFeatures) : TNMStaging :=
  let depthToT :=
    [ ("submucosa", "T1");
      ("muscularis propria", "T2");
      ("subserosa", "T3");
      ("peritoneum/invasion", "T4") ] in
  let T := or_else (get depthToT (toLowerCase (tumor_depth features))) "Tx" in
  let N :=
    if (lymph_nodes_involved features === int 0)%js then "N0"
    else if (lymph_nodes_involved features <=? int 3)%js then "N1"
    else "N2" in
  let M := if distant_metastasis features then "M1" else "M0" in
  let stage :=
    if M =? "M1" then "Stage IV"
    else if among ["T1"; "T2"] T && (N =? "N0") then "Stage I"
    else if is_str T "T3" && (N =? "N0") then "Stage II"
    else if array_includes ["N1"; "N2"] N then "Stage III"
    else "Stage Unknown" in
  {| T := T; N := N; M := M; stage := stage;
     description := getColorectalStageDescription stage |}.

Definition stageHeadNeckCancer (features : MedicalFeatures) : TNMStaging :=
  let T :=
    if (tumor_size_cm features <=? int 2)%js then "T1"
    else if (tumor_size_cm features <=? int 4)%js then "T2"
    else "T3" in
  let N :=
    if (lymph_nodes_involved features === int 0)%js then "N0"
    else if (lymph_nodes_involved features === int 1)%js then "N1"
    else if (lymph_nodes_involved features <=? int 3)%js then "N2"
    else "N3" in
  let M := if distant_metastasis features then "M1" else "M0" in
  let stage :=
    if M =? "M1" then "Stage IVC"
    else if (T =? "T1") && (N =? "N0") then "Stage I"
    else if array_includes ["T1"; "T2"] T && array_includes ["N1"; "N2"] N
      then "Stage II–III"
    else if (T =? "T3") || (N =? "N3") then "Stage IV"
    else "Stage Unknown" in
  {| T := Str T; N := N; M := M; stage := stage;
     description := getHeadNeckStageDescription stage |}.

(** The [switch] of [determineTNMStage] compares [type] with each [case]
    label by [===], in the order of the source. *)
Definition determineTNMStage (cancerType : string) (features : MedicalFeatures)
  : TNMStaging :=
  let type := toLowerCase cancerType in
  if type =? "gallbladder" then stageGallbladderCancer features
  else if type =? "esophageal" then stageEsophagealCancer features
  else if type =? "breast" then stageBreastCancer features
  else if type =? "lung" then stageLungCancer features
  else if type =? "colorectal" then stageColorectalCancer features
  else if (type =? "head and neck") || (type =? "oral cavity")
          || (type =? "oropharynx") then stageHeadNeckCancer features
  else
    {| T := Str "Unknown"; N := "Unknown"; M := "Unknown";
       stage := "Not available";
       description := Str ("Staging not available for " ++ cancerType) |}.

Definition treatmentDict : list (string * list (string * string)) :=
  [ ("gallbladder",
      [ ("I", "Surgical resection (simple cholecystectomy or wedge resection).");
        ("II", "Extended cholecystectomy with lymph node dissection.");
        ("III", "Surgical resection ± adjuvant chemoradiotherapy.");
        ("IV", "Systemic chemotherapy (e.g., gemcitabine + cisplatin).") ]);
    ("esophageal",
      [ ("I", "Endoscopic mucosal resection or esophagectomy.");
        ("II", "Neoadjuvant chemoradiotherapy followed by surgery.");
        ("III", "Definitive chemoradiation or surgery after neoadjuvant therapy.");
        ("IV", "Systemic therapy or palliative RT/stent placement.") ]);
    ("breast",
      [ ("I", "Surgery (BCS or mastectomy) ± adjuvant RT.");
        ("II", "Surgery + chemo/hormonal therapy + radiation.");
        ("III", "Neoadjuvant chemotherapy → surgery + adjuvant therapy.");
        ("IV", "Systemic therapy based on biomarkers.") ]);
    ("lung",
      [ ("I", "Surgical resection ± adjuvant chemo.");
        ("II", "Surgery + chemo ± radiation.");
        ("III", "Concurrent chemoradiotherapy ± immunotherapy.");
        ("IV", "Targeted therapy, immunotherapy, or chemo.") ]);
    ("colorectal",
      [ ("I", "Surgical resection (segmental colectomy).");
        ("II", "Surgery ± adjuvant chemo (if high-risk).");
        ("III", "Surgery + adjuvant FOLFOX or CAPOX.");
        ("IV", "Systemic therapy ± targeted therapy.") ]);
    ("head and neck",
      [ ("I", "Surgery or radiation alone.");
        ("II", "Surgery ± adjuvant RT.");
        ("III", "Surgery + RT/chemo or concurrent chemoradiation.");
        ("IV", "Systemic therapy ± RT. Consider immunotherapy.") ]) ].

(** The stage group that [getTreatmentGuidelines] computes from the stage. *)
Definition stageGroup (stage : string) : string :=
  if includes stage "I" && negb (includes stage "V") then "I"
  else if includes stage "II" then "II"
  else if includes stage "III" then "III"
  else if includes stage "IV" then "IV"
  else "Unknown".

Fixpoint own_dict (d : list (string * list (string * string))) (k : string)
  : option (list (string * string)) :=
  match d with
  | [] => None
  | (k', v) :: d' => if String.eqb k k' then Some v else own_dict d' k
  end.

(** [treatmentDict[cancerType]?.[stageGroup] || '...'].  A [cancerType] that
    is no key of the table gives [undefined] or a member inherited from
    [Object.prototype]; none of these has a property named by a stage group,
    so the lookup falls to the default text. *)
Definition getTreatmentGuidelines (cancerType stage : string) : string :=
  let group := stageGroup stage in
  match own_dict treatmentDict cancerType with
  | Some entries =>
      match or_else (get entries group) "Treatment information not available." with
      | Str s => s
      | _ => "Treatment information not available."
      end
  | None => "Treatment information not available."
  end.

End Staging.

(** ** Regular expressions of the runtime

    The backtracking matcher of ECMAScript ([RegExp.prototype.exec],
    [String.prototype.matchAll], [RegExp.prototype.test]) for the constructs
    that the patterns of the sources use. *)

Module RegExp.
Import JS.

Inductive charset : Type :=
| Char (c : ascii)            (* a literal character *)
| Digit                       (* \d *)
| Space                       (* \s *)
| Word                        (* \w *)
| Union (a b : charset).      (* [ab] *)

(** Non-capturing groups [(?:r)] only delimit the syntax and leave no node.
    A named group [(?<name>r)] is the capturing group of its index. *)
Inductive regex : Type :=
| Eps                                  (* the empty pattern *)
| Set_ (cs : charset)                  (* one character of a set *)
| Seq (r1 r2 : regex)                  (* r1r2 *)
| Alt (r1 r2 : regex)                  (* r1|r2 *)
| Star (greedy : bool) (r : regex)     (* r* and r*? *)
| Opt (greedy : bool) (r : regex)      (* r? and r?? *)
| Group (n : nat) (r : regex).         (* (r), the n-th capturing group *)

(** [r+] *)
Definition Plus (r : regex) : regex := Seq r (Star true r).

(** A literal word. *)
Fixpoint Lit (s : string) : regex :=
  match s with
  | EmptyString => Eps
  | String c s' => Seq (Set_ (Char c)) (Lit s')
  end.

(** [r|r1|...|rn] *)
Fixpoint Alts (r : regex) (rs : list regex) : regex :=
  match rs with
  | [] => r
  | r' :: rs' => Alt r (Alts r' rs')
  end.

(** [r1r2...rn] *)
Fixpoint Seqs (rs : list regex) : regex :=
  match rs with
  | [] => Eps
  | r :: rs' => Seq r (Seqs rs')
  end.

(** Membership in a set; with the flag [i] characters are compared after
    [Canonicalize], which is [toUpperCase] on one code unit. *)
Fixpoint mem (ignoreCase : bool) (cs : charset) (c : ascii) : bool :=
  match cs with
  | Char a =>
      if ignoreCase then Ascii.eqb (upper_char a) (upper_char c)
      else Ascii.eqb a c
  | Digit => is_digit c
  | Space => is_space c
  | Word => is_word c
  | Union a b => mem ignoreCase a c || mem ignoreCase b c
  end.

(** The captures of a match state: the latest binding of an index comes
    first; [None] is [undefined]. *)
Definition captures : Type := list (nat * option string).

Fixpoint capture (caps : captures) (n : nat) : option string :=
  match caps with
  | [] => None
  | (m, v) :: caps' => if Nat.eqb n m then v else capture caps' n
  end.

(** The indices of the capturing groups of a pattern. *)
Fixpoint groups_of (r : regex) : list nat :=
  match r with
  | Eps | Set_ _ => []
  | Seq r1 r2 | Alt r1 r2 => (groups_of r1 ++ groups_of r2)%list
  | Star _ r1 | Opt _ r1 => groups_of r1
  | Group n r1 => n :: groups_of r1
  end.

(** Every iteration of a quantifier starts with the captures of its atom
    reset to [undefined]. *)
Definition reset (ns : list nat) (caps : captures) : captures :=
  (map (fun n => (n, None)) ns ++ caps)%list.

(** The part of [s] before its suffix [rest]. *)
Definition consumed (s rest : string) : string :=
  String.substring 0 (String.length s - String.length rest) s.

(** [rest] is what is left of [s] after some first characters. *)
Definition suffix_of (rest s : string) : Prop :=
  exists before, s = before ++ rest.

Definition state : Type := (string * captures)%type.
Definition continuation : Type := string -> captures -> option state.

Definition or_try (a : option state) (b : unit -> option state) : option state :=
  match a with
  | Some x => Some x
  | None => b tt
  end.

(** The iterations of a star: [body s caps k] matches the atom once and
    continues with [k].  An iteration that consumes nothing is rejected, so
    every iteration shortens the input and the fuel [S (length s)] is never
    used up. *)
Fixpoint iterate (body : string -> captures -> continuation -> option state)
  (greedy : bool) (k : continuation) (fuel : nat) (s : string)
  (caps : captures) {struct fuel} : option state :=
  match fuel with
  | O => None
  | S fuel' =>
      let again (_ : unit) :=
        body s caps
          (fun s1 c1 =>
             if (String.length s1 <? String.length s)%nat
             then iterate body greedy k fuel' s1 c1 else None) in
      if greedy then or_try (again tt) (fun _ => k s caps)
      else or_try (k s caps) again
  end.

(** [run i r s caps k]: match [r] at the head of [s], then continue with [k]
    on the rest of the input; on failure of [k] the alternatives of [r] are
    tried in the order of priority. *)
Fixpoint run (i : bool) (r : regex) (s : string) (caps : captures)
  (k : continuation) {struct r} : option state :=
  match r with
  | Eps => k s caps
  | Set_ cs =>
      match s with
      | String c s' => if mem i cs c then k s' caps else None
      | EmptyString => None
      end
  | Seq r1 r2 => run i r1 s caps (fun s1 c1 => run i r2 s1 c1 k)
  | Alt r1 r2 => or_try (run i r1 s caps k) (fun _ => run i r2 s caps k)
  | Star greedy r1 =>
      iterate (fun s0 c0 k0 => run i r1 s0 (reset (groups_of r1) c0) k0)
        greedy k (S (String.length s)) s caps
  | Opt greedy r1 =>
      let once (_ : unit) :=
        run i r1 s (reset (groups_of r1) caps)
          (fun s1 c1 =>
             if (String.length s1 <? String.length s)%nat
             then k s1 c1 else None) in
      if greedy then or_try (once tt) (fun _ => k s caps)
      else or_try (k s caps) once
  | Group n r1 =>
      run i r1 s caps (fun s1 c1 => k s1 ((n, Some (consumed s s1)) :: c1))
  end.

(** What a successful match went through: the continuation was taken on a
    suffix of the input, with the captures outside the pattern untouched. *)
Definition continued (r : regex) (s : string) (caps : captures)
  (k : continuation) (res : state) : Prop :=
  exists s' c',
    k s' c' = Some res
    /\ suffix_of s' s
    /\ forall n, ~ In n (groups_of r) -> capture c' n = capture caps n.

(** The result of [exec]: [index], [m[0]] and the captures. *)
Record MatchResult : Type := {
  index : nat;
  matched : string;
  groups : captures
}.

(** [m[n]] for [n >= 1]. *)
Definition group (m : MatchResult) (n : nat) : option string :=
  capture (groups m) n.

(** The first position at or after [at_] (where the suffix [s] of the input
    starts) at which the pattern matches, with the end index of the match. *)
Fixpoint search (i : bool) (r : regex) (s : string) (at_ : nat)
  : option (MatchResult * nat) :=
  match run i r s [] (fun rest caps => Some (rest, caps)) with
  | Some (rest, caps) =>
      let m0 := consumed s rest in
      Some ({| index := at_; matched := m0; groups := caps |},
            at_ + String.length m0)
  | None =>
      match s with
      | EmptyString => None
      | String _ s' => search i r s' (S at_)
      end
  end.

Fixpoint drop (n : nat) (s : string) : string :=
  match n, s with
  | O, _ => s
  | S n', String _ s' => drop n' s'
  | S _, EmptyString => EmptyString
  end.

(** A [RegExp] object: the pattern, the flags [g] and [i], and the mutable
    [lastIndex]. *)
Record t : Type := {
  source : regex;
  global : bool;
  ignoreCase : bool;
  lastIndex : nat
}.

(** Evaluating a regular-expression literal creates a new object. *)
Definition literal (r : regex) (g i : bool) : t :=
  {| source := r; global := g; ignoreCase := i; lastIndex := 0 |}.

Definition set_lastIndex (re : t) (n : nat) : t :=
  {| source := source re; global := global re; ignoreCase := ignoreCase re;
     lastIndex := n |}.

(** [re.exec(s)]: the match and the object after the call. *)
Definition exec (re : t) (s : string) : option MatchResult * t :=
  let start := if global re then lastIndex re else 0 in
  if (String.length s <? start)%nat then (None, set_lastIndex re 0)
  else
    match search (ignoreCase re) (source re) (drop start s) start with
    | None => (None, if global re then set_lastIndex re 0 else re)
    | Some (m, e) => (Some m, if global re then set_lastIndex re e else re)
    end.

(** [re.test(s)] *)
Definition test (re : t) (s : string) : bool * t :=
  match exec re s with
  | (Some _, re') => (true, re')
  | (None, re') => (false, re')
  end.

(** The iterator of [matchAll]: after an empty match [lastIndex] moves one
    position on. *)
Fixpoint matchAll_from (fuel : nat) (re : t) (s : string) : list MatchResult :=
  match fuel with
  | O => []
  | S fuel' =>
      match exec re s with
      | (None, _) => []
      | (Some m, re') =>
          let re'' :=
            if String.eqb (matched m) EmptyString
            then set_lastIndex re' (S (lastIndex re')) else re' in
          m :: matchAll_from fuel' re'' s
      end
  end.

(** [Array.from(s.matchAll(re))] for a global [re]: the matches of a copy of
    [re] that starts at [re.lastIndex]; [re] itself is left as it is.  Every
    match moves [lastIndex] forward, so there are at most [length s + 1]. *)
Definition matchAll (s : string) (re : t) : list MatchResult :=
  matchAll_from (S (S (String.length s)))
    (set_lastIndex re (lastIndex re)) s.

End RegExp.

(** ** Number parsing of the runtime *)

Module Parse.
Import JS.

(** The longest prefix of characters that satisfy [p], and the rest. *)
Fixpoint span (p : ascii -> bool) (s : string) : string * string :=
  match s with
  | EmptyString => (EmptyString, EmptyString)
  | String c s' =>
      if p c then let (a, b) := span p s' in (String c a, b)
      else (EmptyString, s)
  end.

Definition digit_value (c : ascii) : Z :=
  let n := Z.of_nat (nat_of_ascii c) in
  if is_digit c then n - 48
  else if is_lower c then n - 87
  else if is_upper c then n - 55
  else 0.

Definition is_hex_digit (c : ascii) : bool :=
  is_digit c || (Z.ltb (digit_value c) 16 && (is_lower c || is_upper c)).

(** The value of a string of digits in a radix, most significant first. *)
Definition digits_value (radix : Z) (s : string) : Z :=
  fold_left (fun acc c => acc * radix + digit_value c)%Z
    (list_ascii_of_string s) 0%Z.

(** An optional sign: [true] for a minus. *)
Definition sign (s : string) : bool * string :=
  match s with
  | String "-" s' => (true, s')
  | String "+" s' => (false, s')
  | _ => (false, s)
  end.

Definition signed (minus : bool) (a : number) : number :=
  if minus then neg a else a.

(** [10^e] as a rational, for any integer [e]. *)
Definition pow10 (e : Z) : Q :=
  if (0 <=? e)%Z then inject_Z (10 ^ e) else (1 / inject_Z (10 ^ (- e)))%Q.

(** The exponent part [e±ddd] of a decimal literal, [0] when there is none. *)
Definition exponent (s : string) : Z :=
  match s with
  | String c s' =>
      if Ascii.eqb (lower_char c) "e" then
        let (minus, s'') := sign s' in
        let (ds, _) := span is_digit s'' in
        match ds with
        | EmptyString => 0%Z
        | _ => if minus then (- digits_value 10 ds)%Z else digits_value 10 ds
        end
      else 0%Z
  | EmptyString => 0%Z
  end.

(** [parseFloat(s)]: leading white space is skipped and the longest prefix
    that is a decimal literal is read; [NaN] when there is none. *)
Definition parseFloat (s : string) : number :=
  let (minus, s1) := sign (trimStart s) in
  if String.prefix "Infinity" s1 then signed minus PosInfinity
  else
    let (ip, s2) := span is_digit s1 in
    let (fp, s3) :=
      match s2 with
      | String "." s2' => span is_digit s2'
      | _ => (EmptyString, s2)
      end in
    match ip, fp with
    | EmptyString, EmptyString => NaN
    | _, _ =>
        let mantissa := inject_Z (digits_value 10 (ip ++ fp)) in
        let e := (exponent s3 - Z.of_nat (String.length fp))%Z in
        signed minus (fin (mantissa * pow10 e)%Q)
    end.

(** [parseInt(s)] with no radix: radix 16 after a prefix [0x], else 10. *)
Definition parseInt (s : string) : number :=
  let (minus, s1) := sign (trimStart s) in
  let (radix, s2) :=
    match s1 with
    | String "0" (String x s') =>
        if Ascii.eqb (lower_char x) "x" then (16%Z, s') else (10%Z, s1)
    | _ => (10%Z, s1)
    end in
  let (ds, _) :=
    span (if (radix =? 16)%Z then is_hex_digit else is_digit) s2 in
  match ds with
  | EmptyString => NaN
  | _ => signed minus (int (digits_value radix ds))
  end.

End Parse.

(** ** [lib/utils.ts]: the extractors *)

Module Utils.
Import JS RegExp Parse.

Record CancerTypeResult : Type := {
  type : string;
  type_confidence : number
}.

Record TumorSizeResult : Type := {
  size : number;
  size_confidence : number
}.

Record LymphNodesResult : Type := {
  count : number;
  count_confidence : number
}.

Record MetastasisResult : Type := {
  hasMetastasis : bool;
  metastasis_confidence : number
}.

(** The entries of [cancerKeywords], in the order of the object literal. *)
Definition cancerKeywords : list (string * list string) :=
  [ ("gallbladder", ["gallbladder"; "gb carcinoma"; "cholangiocarcinoma"]);
    ("esophageal", ["esophagus"; "esophageal"; "oesophageal"]);
    ("breast", ["breast"; "mammary"; "ductal carcinoma"; "lobular carcinoma"]);
    ("lung", ["lung"; "pulmonary"; "nsclc"; "sclc"; "bronchogenic"]);
    ("colorectal", ["colon"; "rectum"; "colorectal"; "rectal"; "colonic"]);
    ("head and neck",
      ["oral cavity"; "oropharynx"; "larynx"; "pharynx"; "head and neck"]) ].

(** The inner loop of [extractCancerType]: the score of one cancer type. *)
Definition keywordScore (textLower : string) (keywords : list string) : number :=
  fold_left
    (fun score keyword =>
       if includes textLower (toLowerCase keyword)
       then add score
              (mul (int (Z.of_nat (List.length (split_char " " keyword))))
                   (fin 0.3%Q))
       else score)
    keywords (int 0).

Definition extractCancerType (text : string) : CancerTypeResult :=
  let textLower := toLowerCase text in
  let '(bestMatch, bestScore) :=
    fold_left
      (fun '(bestMatch, bestScore) '(cancerType, keywords) =>
         let score := keywordScore textLower keywords in
         if (score >? bestScore)%js then (cancerType, score)
         else (bestMatch, bestScore))
      cancerKeywords (EmptyString, int 0) in
  let confidence := min2 (div bestScore (fin 3.0%Q)) (fin 1.0%Q) in
  {| type := bestMatch; type_confidence := confidence |}.

(** [\d+(?:\.\d+)?] *)
Definition decimal : regex :=
  Seq (Plus (Set_ Digit)) (Opt true (Seq (Set_ (Char ".")) (Plus (Set_ Digit)))).

Definition spaces : regex := Star true (Set_ Space).

(** [/(?:tumor|mass|lesion|growth)[\s\w]*?(?:measuring|measures|size|sized?)\s*(?:approximately|approx\.?|about)?\s*(\d+(?:\.\d+)?)\s*(?:x\s*\d+(?:\.\d+)?)*\s*(cm|mm)/gi] *)
Definition sizePattern : regex :=
  Seqs
    [ Alts (Lit "tumor") [Lit "mass"; Lit "lesion"; Lit "growth"];
      Star false (Set_ (Union Space Word));
      Alts (Lit "measuring")
        [Lit "measures"; Lit "size"; Seq (Lit "size") (Opt true (Lit "d"))];
      spaces;
      Opt true
        (Alts (Lit "approximately")
           [Seq (Lit "approx") (Opt true (Lit ".")); Lit "about"]);
      spaces;
      Group 1 decimal;
      spaces;
      Star true (Seqs [Lit "x"; spaces; decimal]);
      spaces;
      Group 2 (Alts (Lit "cm") [Lit "mm"]) ].

(** The body of the loop of [extractTumorSize]: the size in cm that one
    match gives.  Both groups take part in every match of the pattern. *)
Definition matchSize (m : MatchResult) : number :=
  let size :=
    match group m 1 with
    | Some s => parseFloat s
    | None => NaN
    end in
  let unit_ :=
    match group m 2 with
    | Some s => toLowerCase s
    | None => EmptyString
    end in
  if unit_ =? "mm" then div size (int 10) else size.

Definition extractTumorSize (text : string) : TumorSizeResult :=
  let matches := matchAll text (literal sizePattern true true) in
  let sizes := map matchSize matches in
  if (0 <? List.length sizes)%nat then
    let maxSize := Math_max sizes in
    let confidence :=
      if (List.length sizes =? 1)%nat then fin 0.9%Q else fin 0.7%Q in
    {| size := maxSize; size_confidence := confidence |}
  else {| size := int 0; size_confidence := int 0 |}.

(** [/(?:(?<num>\d+)|multiple|several|numerous)\s*(?:positive|involved|metastatic|malignant|enlarged)?\s*(?:lymph\s*nodes?|nodes?|LN)/gi];
    [num] is group 1. *)
Definition nodePattern : regex :=
  Seqs
    [ Alts (Group 1 (Plus (Set_ Digit)))
        [Lit "multiple"; Lit "several"; Lit "numerous"];
      spaces;
      Opt true
        (Alts (Lit "positive")
           [Lit "involved"; Lit "metastatic"; Lit "malignant"; Lit "enlarged"]);
      spaces;
      Alts (Seqs [Lit "lymph"; spaces; Lit "node"; Opt true (Lit "s")])
        [Seq (Lit "node") (Opt true (Lit "s")); Lit "LN"] ].

(** The counts that one match of [nodePattern] pushes. *)
Definition nodeCounts (m : MatchResult) : list number :=
  match group m 1 with
  | Some (String c num) => [parseInt (String c num)]
  | _ =>
      let qualifier := toLowerCase (matched m) in
      if includes qualifier "multiple" || includes qualifier "numerous"
      then [int 5]
      else if includes qualifier "several" then [int 3]
      else []
  end.

Definition extractLymphNodes (text : string) : LymphNodesResult :=
  let matches := matchAll text (literal nodePattern true true) in
  let counts := flat_map nodeCounts matches in
  if (0 <? List.length counts)%nat then
    let maxCount := Math_max counts in
    let confidence := fin 0.8%Q in
    {| count := maxCount; count_confidence := confidence |}
  else {| count := int 0; count_confidence := fin 0.5%Q |}.

(** The pattern of [extractMetastasis], with flags [gi]: an optional
    [distant] followed by white space, then one of [metastas[ei]s],
    [metastatic\s*disease], [secondary\s*deposits?] and [disseminated]. *)
Definition metastasisPattern : regex :=
  Seq (Opt true (Seq (Lit "distant") spaces))
    (Alts
       (Seqs [Lit "metastas"; Set_ (Union (Char "e") (Char "i")); Lit "s"])
       [ Seqs [Lit "metastatic"; spaces; Lit "disease"];
         Seqs [Lit "secondary"; spaces; Lit "deposit"; Opt true (Lit "s")];
         Lit "disseminated" ]).

(** The test of the loop body of [extractMetastasis]: a negation within the
    50 characters before the match. *)
Definition negated (text : string) (m : MatchResult) : bool :=
  let start := Z.to_nat (Z.max 0 (Z.of_nat (index m) - 50)) in
  let context := toLowerCase (slice text start (index m)) in
  existsb (fun neg => includes context neg)
    ["no "; "without"; "negative"; "absent"].

(** The loop over the matches leaves at the first negated one. *)
Fixpoint noneNegated (text : string) (matches : list MatchResult) : bool :=
  match matches with
  | [] => true
  | m :: matches' =>
      if negated text m then false else noneNegated text matches'
  end.

Definition extractMetastasis (text : string) : MetastasisResult :=
  let matches := matchAll text (literal metastasisPattern true true) in
  if (0 <? List.length matches)%nat then
    let hasMetastasis := noneNegated text matches in
    let confidence := if hasMetastasis then fin 0.9%Q else fin 0.8%Q in
    {| hasMetastasis := hasMetastasis; metastasis_confidence := confidence |}
  else {| hasMetastasis := false; metastasis_confidence := fin 0.6%Q |}.

End Utils.

(** ** [lib/document-processor.ts] *)

Module DocumentProcessor.
Import JS RegExp Utils.
Export Staging.

(** *** Exceptions and the state of the processor *)

(** A thrown value: an [Error] with its message, or any other value. *)
Inductive thrown : Type :=
| Error (message : string)
| NotAnError.

Inductive outcome (A : Type) : Type :=
| Returns (a : A)
| Throws (e : thrown).
Arguments Returns {A} a.
Arguments Throws {A} e.

(** [error instanceof Error ? error.message : 'Unknown error'] *)
Definition message_of (e : thrown) : string :=
  match e with
  | Error m => m
  | NotAnError => "Unknown error"
  end.

Definition Blob : Type := string.
Definition ArrayBuffer : Type := string.
Definition Worker : Type := nat.

(** A [File] is a [Blob] with a name, a size and a MIME type. *)
Record File : Type := {
  name : string;
  size : number;
  type : string;
  blob : Blob
}.

(** A page of PDF.js: the [str] of the items of its text content, and the
    PNG blob of its rendering on a canvas. *)
Record PDFPage : Type := {
  getTextContent : outcome (list string);
  render : outcome Blob
}.

Record PDFDocument : Type := {
  numPages : nat;
  getPage : nat -> outcome PDFPage
}.

(** The calls into the libraries and the browser: [file.arrayBuffer()],
    [pdfjsLib.getDocument], [mammoth.extractRawText], [createWorker('eng')],
    [worker.recognize] (the text and the confidence of its [data]) and the
    successive readings of [Date.now()]. *)
Record Libraries : Type := {
  arrayBuffer : File -> outcome ArrayBuffer;
  getDocument : ArrayBuffer -> outcome PDFDocument;
  extractRawText : ArrayBuffer -> outcome string;
  createWorker : outcome Worker;
  recognize : Worker -> Blob -> outcome (string * number);
  Date_now : nat -> number
}.

(** The fields of a [DocumentProcessor] object. *)
Record Processor : Type := {
  tesseractWorker : option Worker
}.

(** A method of the processor: it returns or throws, and leaves a state. *)
Definition M (A : Type) : Type := Processor -> outcome A * Processor.

Definition ret {A} (a : A) : M A := fun p => (Returns a, p).

Definition throw {A} (e : thrown) : M A := fun p => (Throws e, p).

Definition bind {A B} (m : M A) (k : A -> M B) : M B :=
  fun p =>
    match m p with
    | (Returns a, p') => k a p'
    | (Throws e, p') => (Throws e, p')
    end.

(** A call into a library. *)
Definition call {A} (o : outcome A) : M A := fun p => (o, p).

(** [try { m } catch (error) { h error }] *)
Definition try_catch {A} (m : M A) (h : thrown -> M A) : M A :=
  fun p =>
    match m p with
    | (Returns a, p') => (Returns a, p')
    | (Throws e, p') => h e p'
    end.

Declare Scope proc_scope.
Delimit Scope proc_scope with proc.
Notation "x <- m ;; k" := (bind m (fun x => k))
  (at level 61, m at next level, right associativity) : proc_scope.
Notation "' pat <- m ;; k" := (bind m (fun x => match x with pat => k end))
  (at level 61, pat pattern, m at next level, right associativity) : proc_scope.
Local Open Scope proc_scope.

(** *** The methods *)

(** [interface OCRResult]; [file_info] repeats the three fields of the file. *)
Record OCRResult : Type := {
  text : string;
  confidence : number;
  method : string;
  processing_time : number;
  page_count : nat;
  file_info : string * number * string
}.

Record PDFResult : Type := {
  pdf_text : string;
  pdf_confidence : number;
  pdf_method : string;
  pageCount : nat
}.

Section Methods.

Variable lib : Libraries.

Definition initializeTesseract : M unit :=
  fun p =>
    match tesseractWorker p with
    | Some _ => (Returns tt, p)
    | None =>
        match createWorker lib with
        | Returns w => (Returns tt, {| tesseractWorker := Some w |})
        | Throws e => (Throws e, p)
        end
    end.

(** [this.tesseractWorker.recognize(blob)]; a call on [null] throws a
    [TypeError]. *)
Definition worker_recognize (b : Blob) : M (string * number) :=
  fun p =>
    match tesseractWorker p with
    | Some w => (recognize lib w b, p)
    | None => (Throws (Error "Cannot read properties of null"), p)
    end.

Definition processImageBlob (b : Blob) : M (string * number) :=
  try_catch
    (_ <- initializeTesseract ;;
     '(text, confidence) <- worker_recognize b ;;
     ret (trim text, div confidence (int 100)))
    (fun error => throw (Error ("OCR processing failed: " ++ message_of error))).

Definition processImage (file : File) : M (string * number) :=
  processImageBlob (blob file).

(** The loop [for (let i = 1; i <= pageCount; i++)] of [processPDF] over the
    page numbers [pages], with the text read so far. *)
Fixpoint readPages (pdf : PDFDocument) (pages : list nat) (text : string)
  : M string :=
  match pages with
  | [] => ret text
  | i :: pages' =>
      page <- call (getPage pdf i) ;;
      items <- call (getTextContent page) ;;
      let pageText := join " " items in
      readPages pdf pages' (text ++ pageText ++ String "010" EmptyString)
  end.

Definition processPDF (file : File) : M PDFResult :=
  try_catch
    (buffer <- call (arrayBuffer lib file) ;;
     pdf <- call (getDocument lib buffer) ;;
     let pageCount := numPages pdf in
     text <- readPages pdf (List.seq 1 pageCount) EmptyString ;;
     if (100 <? String.length (trim text))%nat then
       ret {| pdf_text := trim text; pdf_confidence := fin 0.95%Q;
              pdf_method := "standard_extraction"; pageCount := pageCount |}
     else
       page <- call (getPage pdf 1) ;;
       png <- call (render page) ;;
       '(ocr_text, ocr_confidence) <- processImageBlob png ;;
       ret {| pdf_text := ocr_text; pdf_confidence := ocr_confidence;
              pdf_method := "pdf_ocr"; pageCount := pageCount |})
    (fun error => throw (Error ("PDF processing failed: " ++ message_of error))).

Definition processDOCX (file : File) : M string :=
  try_catch
    (buffer <- call (arrayBuffer lib file) ;;
     value <- call (extractRawText lib buffer) ;;
     if trim value =? "" then
       throw (Error "No text could be extracted from DOCX file")
     else ret value)
    (fun error => throw (Error ("DOCX processing failed: " ++ message_of error))).

Definition docx_type : string :=
  "application/vnd.openxmlformats-officedocument.wordprocessingml.document".

(** The body of the [try] block of [processDocument], up to the values of
    [text], [confidence], [method] and [pageCount]. *)
Definition processByType (file : File) : M (string * number * string * nat) :=
  let fileType := type file in
  if fileType =? "application/pdf" then
    result <- processPDF file ;;
    ret (pdf_text result, pdf_confidence result, pdf_method result,
         pageCount result)
  else if fileType =? docx_type then
    result <- processDOCX file ;;
    ret (result, fin 0.95%Q, "docx_extraction", 1)
  else if startsWith fileType "image/" then
    '(text, confidence) <- processImage file ;;
    ret (text, confidence, "tesseract_ocr", 1)
  else throw (Error "Unsupported file type").

Definition processDocument (file : File) : M OCRResult :=
  let startTime := Date_now lib 0 in
  try_catch
    ('(text, confidence, method, pageCount) <- processByType file ;;
     let processingTime := div (sub (Date_now lib 1) startTime) (int 1000) in
     ret {| text := text; confidence := confidence; method := method;
            processing_time := processingTime; page_count := pageCount;
            file_info := (name file, size file, type file) |})
    (fun error =>
       throw (Error ("Document processing failed: " ++ message_of error))).

End Methods.

(** The pattern of the liver invasion test, with flags [gi]:
    [(?:liver|hepatic)\s*(?:invasion|involvement|infiltration|extension|involvement)]
    or [involving\s*(?:liver|segments?)]. *)
Definition liverInvasionPattern : regex :=
  Alt
    (Seqs [ Alts (Lit "liver") [Lit "hepatic"];
            spaces;
            Alts (Lit "invasion")
              [Lit "involvement"; Lit "infiltration"; Lit "extension";
               Lit "involvement"] ])
    (Seqs [ Lit "involving";
            spaces;
            Alts (Lit "liver") [Seq (Lit "segment") (Opt true (Lit "s"))] ]).

Definition depthKeywords : list string :=
  ["mucosa"; "submucosa"; "muscularis"; "subserosa"; "serosa"; "adventitia"].

(** The loop over [depthKeywords]: the first keyword that the lowered text
    includes, or the empty string. *)
Fixpoint firstDepth (text : string) (keywords : list string) : string :=
  match keywords with
  | [] => EmptyString
  | depth :: keywords' =>
      if includes (toLowerCase text) depth then depth
      else firstDepth text keywords'
  end.

(** [extractFeatures] does not use the processor; nothing in its [try] block
    throws. *)
Definition extractFeatures (text : string) : M MedicalFeatures :=
  try_catch
    (let cancerResult := extractCancerType text in
     let sizeResult := extractTumorSize text in
     let nodesResult := extractLymphNodes text in
     let metastasisResult := extractMetastasis text in
     let liverInvasion := fst (test (literal liverInvasionPattern true true) text) in
     let tumorDepth := firstDepth text depthKeywords in
     ret {| cancer_type := Utils.type cancerResult;
            tumor_size_cm := Utils.size sizeResult;
            lymph_nodes_involved := count nodesResult;
            distant_metastasis := hasMetastasis metastasisResult;
            liver_invasion := liverInvasion;
            tumor_depth := tumorDepth;
            confidence_scores :=
              [ ("cancer_type", type_confidence cancerResult);
                ("tumor_size", size_confidence sizeResult);
                ("lymph_nodes", count_confidence nodesResult);
                ("metastasis", metastasis_confidence metastasisResult);
                ("liver_invasion",
                  if liverInvasion then fin 0.8%Q else fin 0.7%Q);
                ("tumor_depth",
                  if tumorDepth =? "" then fin 0.0%Q else fin 0.8%Q) ];
            extracted_values := [] |})
    (fun error =>
       throw (Error ("Feature extraction failed: " ++ message_of error))).

End DocumentProcessor.

(** ** [components/ProcessingSteps.tsx] and [app/page.tsx]: the progress
    indicator *)

Module Page.
Import JS DocumentProcessor.

Record Step : Type := {
  id : Z;
  title : string;
  step_description : string;
  icon : string
}.

Definition steps : list Step :=
  [ {| id := 1; title := "Document Upload";
       step_description := "Upload and validate your PET/CT report";
       icon := "📄" |};
    {| id := 2; title := "OCR Processing";
       step_description := "Extract text using advanced OCR technology";
       icon := "🔍" |};
    {| id := 3; title := "Feature Extraction";
       step_description := "Identify medical features and staging information";
       icon := "🧠" |};
    {| id := 4; title := "TNM Staging";
       step_description := "Calculate TNM staging based on extracted features";
       icon := "📊" |};
    {| id := 5; title := "AI Analysis";
       step_description := "Generate AI-powered clinical insights";
       icon := "🤖" |} ].

(** [interface ProcessingResult], without the fields [document] and
    [ai_analysis], which only repeat values for display. *)
Record ProcessingResult : Type := {
  success : bool;
  features : option MedicalFeatures;
  staging : option TNMStaging;
  error : option string
}.

(** [interface AppState]; [extraction_result] and [clinical_recommendations]
    stay [null] and are left out. *)
Record AppState : Type := {
  current_step : Z;
  ocr_result : option OCRResult;
  processing_results : option ProcessingResult
}.


(** The updaters passed to [setAppState]. *)
Definition set_current_step (n : Z) (prev : AppState) : AppState :=
  {| current_step := n; ocr_result := ocr_result prev;
     processing_results := processing_results prev |}.

Definition set_ocr_result (r : OCRResult) (prev : AppState) : AppState :=
  {| current_step := current_step prev; ocr_result := Some r;
     processing_results := processing_results prev |}.

Definition set_processing_results (r : ProcessingResult) (prev : AppState)
  : AppState :=
  {| current_step := current_step prev; ocr_result := ocr_result prev;
     processing_results := Some r |}.

Definition set_results_and_step (r : ProcessingResult) (n : Z)
  (prev : AppState) : AppState :=
  {| current_step := n; ocr_result := ocr_result prev;
     processing_results := Some r |}.

(** The [catch] block of [handleFileSelect]. *)
Definition errorResult (e : thrown) : ProcessingResult :=
  {| success := false; features := None; staging := None;
     error := Some match e with
                   | Error m => m
                   | NotAnError => "Processing failed"
                   end |}.

(** One run of [handleFileSelect]: the updaters it passes to [setAppState],
    in order, and the processor it leaves.  (The progress bar and the flag
    [isProcessing] are separate state and are left out.) *)
Definition handleFileSelect (lib : Libraries) (file : File) (p : Processor)
  : list (AppState -> AppState) * Processor :=
  match processDocument lib file p with
  | (Throws e, p1) =>
      ([ set_current_step 2; set_processing_results (errorResult e) ], p1)
  | (Returns ocrResult, p1) =>
      match extractFeatures (text ocrResult) p1 with
      | (Throws e, p2) =>
          ([ set_current_step 2; set_ocr_result ocrResult; set_current_step 3;
             set_processing_results (errorResult e) ], p2)
      | (Returns features, p2) =>
          let staging := determineTNMStage (cancer_type features) features in
          let processingResult :=
            {| success := true; features := Some features;
               staging := Some staging; error := None |} in
          ([ set_current_step 2; set_ocr_result ocrResult; set_current_step 3;
             set_current_step 4; set_current_step 5;
             set_results_and_step processingResult 5 ], p2)
      end
  end.



(** The state of the page after a run. *)
Definition after_run (lib : Libraries) (file : File) (p : Processor)
  (s : AppState) : AppState * Processor :=
  let (updates, p') := handleFileSelect lib file p in
  (fold_left (fun st u => u st) updates s, p').

(** [completedSteps] of the page. *)
Definition completedSteps (s : AppState) : list Z :=
  ((match ocr_result s with Some _ => [1; 2] | None => [] end)
   ++ (match processing_results s with
       | Some {| features := Some _ |} => [3]
       | _ => []
       end)
   ++ (match processing_results s with
       | Some {| staging := Some _ |} => [4]
       | _ => []
       end)
   ++ (match processing_results s with
       | Some {| success := true |} => [5]
       | _ => []
       end))%list%Z.

(** [getStepStatus] of [ProcessingSteps]. *)
Definition getStepStatus (currentStep : Z) (completed : list Z) (stepId : Z)
  : string :=
  if existsb (Z.eqb stepId) completed then "completed"
  else if (stepId =? currentStep)%Z then "current"
  else "pending".

End Page.

(** ** The vocabulary of the specification *)

Module Spec.
Import JS Staging.

(** The decision table of the specification: the staging function of each
    supported cancer type. *)
Definition stagingTable : list (string * (MedicalFeatures -> TNMStaging)) :=
  [ ("gallbladder", stageGallbladderCancer);
    ("esophageal", stageEsophagealCancer);
    ("breast", stageBreastCancer);
    ("lung", stageLungCancer);
    ("colorectal", stageColorectalCancer);
    ("head and neck", stageHeadNeckCancer);
    ("oral cavity", stageHeadNeckCancer);
    ("oropharynx", stageHeadNeckCancer) ].

Fixpoint stagerOf (table : list (string * (MedicalFeatures -> TNMStaging)))
  (type : string) : option (MedicalFeatures -> TNMStaging) :=
  match table with
  | [] => None
  | (name, stager) :: table' =>
      if type =? name then Some stager else stagerOf table' type
  end.

(** A cancer type is supported when its name, in lower case, is in the
    table. *)
Definition supported (cancerType : string) : Prop :=
  In (toLowerCase cancerType) (map fst stagingTable).

(** The stage that the specification gives to a metastatic cancer. *)
Definition metastaticStage (type : string) : string :=
  if (type =? "gallbladder") || (type =? "esophageal") then "Stage IVB"
  else if (type =? "breast") || (type =? "lung") || (type =? "colorectal")
  then "Stage IV"
  else "Stage IVC".





(** The entry of a cancer type and a stage group in [treatmentDict]. *)
Definition treatmentOf (cancerType group : string) : option string :=
  match own_dict treatmentDict cancerType with
  | Some entries => own entries group
  | None => None
  end.






(** The upload kinds of the specification: PDF, DOCX and image. *)
Definition accepted (fileType : string) : bool :=
  (fileType =? "application/pdf")
  || (fileType =? DocumentProcessor.docx_type)
  || startsWith fileType "image/".





End Spec.

(** ** Sample inputs *)

Module Samples.
Import JS Staging DocumentProcessor.

Definition findings (size nodes : number) (metastasis invasion : bool)
  (depth : string) : MedicalFeatures :=
  {| cancer_type := EmptyString; tumor_size_cm := size;
     lymph_nodes_involved := nodes; distant_metastasis := metastasis;
     liver_invasion := invasion; tumor_depth := depth;
     confidence_scores := []; extracted_values := [] |}.

(** A tumor of 3.5 cm, no involved node, no metastasis. *)
Definition localized : MedicalFeatures :=
  findings (fin 3.5%Q) (int 0) false false EmptyString.


(** No measurable tumor, no liver invasion, no node, no metastasis. *)
Definition nothing_found : MedicalFeatures :=
  findings (int 0) (int 0) false false EmptyString.

(** The findings of [localized] with another node count. *)
Definition with_nodes (nodes : number) : MedicalFeatures :=
  findings (fin 3.5%Q) nodes false false EmptyString.

(** A metastatic cancer. *)
Definition metastatic : MedicalFeatures :=
  findings (fin 1.2%Q) (int 2) true false "mucosa".

(** A PDF with a text layer of two pages, and a scanned PDF with none. *)
Definition textPages : list (list string) :=
  [ ["PET/CT report."; "Carcinoma of the breast:";
     "mass measuring 3.5 x 2.1 cm in the upper outer quadrant."];
    ["2 positive lymph nodes in the left axilla.";
     "No evidence of distant metastasis."] ].

Definition pageOf (items : list string) (png : Blob) : PDFPage :=
  {| getTextContent := Returns items; render := Returns png |}.

Definition textDocument : PDFDocument :=
  {| numPages := 2;
     getPage := fun i =>
       match i with
       | 1 => Returns (pageOf (nth 0 textPages []) "png of page 1")
       | 2 => Returns (pageOf (nth 1 textPages []) "png of page 2")
       | _ => Throws (Error "Invalid page request")
       end |}.

Definition scannedDocument : PDFDocument :=
  {| numPages := 2;
     getPage := fun i =>
       match i with
       | 1 => Returns (pageOf [] " Lung mass measuring 45 mm ")
       | 2 => Returns (pageOf [] "second page")
       | _ => Throws (Error "Invalid page request")
       end |}.

(** Libraries that answer every call: the bytes of a file or of a rendered
    page stand for what the library reads in them. *)
Definition library : Libraries :=
  {| arrayBuffer := fun file => Returns (blob file);
     getDocument := fun buffer =>
       if buffer =? "scanned" then Returns scannedDocument
       else Returns textDocument;
     extractRawText := fun buffer => Returns buffer;
     createWorker := Returns 7;
     recognize := fun _ png => Returns (png, int 87);
     Date_now := fun n => int (1000 * Z.of_nat n) |}.

Definition newProcessor : Processor := {| tesseractWorker := None |}.


Definition scannedPdf : File :=
  {| name := "scan.pdf"; size := int 51200; type := "application/pdf";
     blob := "scanned" |}.

Definition reportDocx : File :=
  {| name := "report.docx"; size := int 2048; type := docx_type;
     blob := "Breast mass measuring 3.5 cm. 2 positive lymph nodes." |}.

Definition notes : File :=
  {| name := "notes.txt"; size := int 12; type := "text/plain";
     blob := "lung mass" |}.

End Samples.

(** ** [DocumentProcessor.cleanup] *)

Module Cleanup.
Import DocumentProcessor.

Section Cleanup.

(** [worker.terminate()] of the OCR library. *)
Variable terminate : Worker -> outcome unit.

Definition cleanup : M unit :=
  fun p =>
    match tesseractWorker p with
    | Some w =>
        match terminate w with
        | Returns _ => (Returns tt, {| tesseractWorker := None |})
        | Throws e => (Throws e, p)
        end
    | None => (Returns tt, p)
    end.

End Cleanup.

End Cleanup.

(** ** More vocabulary and more samples, for the further properties *)

Module Terms.
Import JS Staging DocumentProcessor.

(** A string without upper-case letters. *)
Fixpoint no_upper (s : string) : bool :=
  match s with
  | EmptyString => true
  | String c s' => negb (is_upper c) && no_upper s'
  end.

(** The stages that the staging functions write. *)
Definition allStages : list string :=
  [ "Stage I"; "Stage II"; "Stage III"; "Stage IIIA"; "Stage IIIB";
    "Stage II–III"; "Stage IV"; "Stage IVA"; "Stage IVB"; "Stage IVC";
    "Stage Unknown"; "Not available" ].

(** The default text of [getTreatmentGuidelines]. *)
Definition noTreatment : string := "Treatment information not available.".

(** A cancer with a depth that the tables do not know. *)
Definition odd_depth : MedicalFeatures :=
  Samples.findings (fin 1.2%Q) (int 0) false false "Constructor".

(** A number between 0 and 1, as the comparisons of the code see it. *)
Definition in_unit_interval (x : number) : Prop :=
  (int 0 <=? x)%js = true /\ (x <=? int 1)%js = true.

(** A string of decimal digits. *)
Fixpoint all_digits (s : string) : bool :=
  match s with
  | EmptyString => true
  | String c s' => is_digit c && all_digits s'
  end.

(** Some keyword of [cancerKeywords] occurs in the lowered text. *)
Definition mentions_a_cancer (textLower : string) : bool :=
  existsb (fun entry : string * list string =>
             existsb (fun keyword => includes textLower (toLowerCase keyword))
                     (snd entry))
          Utils.cancerKeywords.

(** What a method may do to the processor: leave it as it is, or store the
    worker that [createWorker] returned when there was none. *)
Definition kept_or_created (lib : Libraries) (p p' : Processor) : Prop :=
  p' = p
  \/ (tesseractWorker p = None
      /\ exists w, createWorker lib = Returns w
                   /\ p' = {| tesseractWorker := Some w |}).

(** The methods that read the text by OCR. *)
Definition ocrMethods : list string := ["pdf_ocr"; "tesseract_ocr"].

(** A match, its captures and a matcher state with every letter in lower
    case. *)
Definition lower_caps (caps : RegExp.captures) : RegExp.captures :=
  map (fun binding : nat * option string =>
         (fst binding, option_map toLowerCase (snd binding))) caps.

Definition lower_state (st : RegExp.state) : RegExp.state :=
  (toLowerCase (fst st), lower_caps (snd st)).

Definition lower_match (m : RegExp.MatchResult) : RegExp.MatchResult :=
  {| RegExp.index := RegExp.index m;
     RegExp.matched := toLowerCase (RegExp.matched m);
     RegExp.groups := lower_caps (RegExp.groups m) |}.


End Terms.

(** * Properties *)

Import JS Staging Spec Samples.

(** ** The order of numbers *)

Lemma le_trans (a b c : number) :
  (a <=? b)%js = true -> (b <=? c)%js = true -> (a <=? c)%js = true.
Proof.
  destruct a, b, c; simpl; try congruence.
  rewrite !Qle_bool_iff. apply Qle_trans.
Qed.

Lemma gt_not_le (a b : number) :
  (a >? b)%js = true -> (a <=? b)%js = false.
Proof.
  unfold gt. destruct a, b; simpl; try congruence.
  now rewrite negb_true_iff.
Qed.


Lemma strict_eq_le (a b : number) :
  (a === b)%js = true -> (a <=? b)%js = true /\ (b <=? a)%js = true.
Proof.
  destruct a, b; simpl; try congruence; auto.
  rewrite !Qle_bool_iff, Qeq_bool_iff. intros ->. split; apply Qle_refl.
Qed.




(** ** [determineTNMStage]: the decision table *)



Lemma stagerOf_In (type : string) (stager : MedicalFeatures -> TNMStaging) :
  stagerOf stagingTable type = Some stager -> In (type, stager) stagingTable.
Proof.
  unfold stagingTable. simpl.
  repeat match goal with
         | |- context [String.eqb type ?n] =>
             destruct (String.eqb_spec type n) as [-> | _];
             [ intros [= <-]; simpl; tauto | ]
         end.
  discriminate.
Qed.

Lemma determineTNMStage_table (cancerType : string) (features : MedicalFeatures) :
  determineTNMStage cancerType features =
  match stagerOf stagingTable (toLowerCase cancerType) with
  | Some stager => stager features
  | None =>
      {| T := Str "Unknown"; N := "Unknown"; M := "Unknown";
         stage := "Not available";
         description := Str ("Staging not available for " ++ cancerType) |}
  end.
Proof.
  unfold determineTNMStage, stagingTable. cbn [stagerOf].
  generalize (toLowerCase cancerType). intros type.
  repeat match goal with
         | |- context [String.eqb type ?n] => destruct (String.eqb type n)
         end; reflexivity.
Qed.

Lemma supported_stagerOf (cancerType : string) :
  supported cancerType <->
  exists stager, stagerOf stagingTable (toLowerCase cancerType) = Some stager.
Proof.
  unfold supported. generalize (toLowerCase cancerType). intros type.
  unfold stagingTable. simpl. split.
  - intros H.
    repeat (destruct H as [<- | H]; [ eexists; reflexivity | ]).
    contradiction.
  - intros [stager H]. revert H.
    repeat match goal with
           | |- context [String.eqb type ?n] =>
               destruct (String.eqb_spec type n) as [-> | _]; [ tauto | ]
           end.
    discriminate.
Qed.



(** ** The M component and the metastatic stage *)

Lemma supported_cases (cancerType : string) :
  supported cancerType ->
  exists stager,
    In (toLowerCase cancerType, stager) stagingTable
    /\ forall features, determineTNMStage cancerType features = stager features.
Proof.
  intros H. apply supported_stagerOf in H as [stager E].
  exists stager. split; [ now apply stagerOf_In | ].
  intros features. rewrite determineTNMStage_table, E. reflexivity.
Qed.

Ltac each_stager H :=
  simpl in H;
  repeat (destruct H as [H | H]; [ injection H as <- <- | ]);
  try contradiction;
  unfold stageGallbladderCancer, stageEsophagealCancer, stageBreastCancer,
    stageLungCancer, stageColorectalCancer, stageHeadNeckCancer.

(** C8. For every supported cancer type the M component is 'M1' exactly when
    [distant_metastasis] is true and 'M0' otherwise, and a metastatic cancer
    gets the metastatic stage of its type whatever the other findings are. *)
Theorem metastasis_decides_M_and_stage
  (cancerType : string) (features : MedicalFeatures) :
  supported cancerType ->
  let result := determineTNMStage cancerType features in
  M result = (if distant_metastasis features then "M1" else "M0")
  /\ (M result = "M1" <-> distant_metastasis features = true)
  /\ (distant_metastasis features = true ->
      stage result = metastaticStage (toLowerCase cancerType)).
Proof.
  intros Hsup. destruct (supported_cases _ Hsup) as (stager & Hin & ->).
  revert Hin. generalize (toLowerCase cancerType). intros type Hin.
  each_stager Hin; cbn [M stage];
    destruct (distant_metastasis features);
    (split; [ reflexivity | split; [ split; congruence | ] ]);
    intros; try discriminate; reflexivity.
Qed.

Lemma metastasis_decides_M_and_stage_witness :
  supported "Oral Cavity"
  /\ M (determineTNMStage "Oral Cavity" metastatic) = "M1"
  /\ stage (determineTNMStage "Oral Cavity" metastatic) = "Stage IVC".
Proof.
  assert (Hs : supported "Oral Cavity") by (unfold supported; simpl; tauto).
  split; [ exact Hs | ].
  pose proof (metastasis_decides_M_and_stage "Oral Cavity" metastatic Hs) as H.
  split; [ exact (proj1 H) | exact (proj2 (proj2 H) eq_refl) ].
Defined.

(** ** Inputs that no row of a table covers *)

(** C9. The tables are not total: a breast cancer with a tumor over 2 cm and
    at most 5 cm, no involved node and no metastasis, and a gallbladder
    cancer with tumor size 0, no liver invasion, no involved node and no
    metastasis, both get the stage 'Stage Unknown'. *)
Theorem stage_unknown_inputs (features : MedicalFeatures) :
  distant_metastasis features = false ->
  (lymph_nodes_involved features === int 0)%js = true ->
  ((tumor_size_cm features >? int 2)%js = true ->
   (tumor_size_cm features <=? int 5)%js = true ->
   stage (determineTNMStage "breast" features) = "Stage Unknown")
  /\ ((tumor_size_cm features === int 0)%js = true ->
      liver_invasion features = false ->
      stage (determineTNMStage "gallbladder" features) = "Stage Unknown").
Proof.
  intros Hm Hn. split.
  - intros Hgt Hle.
    change (determineTNMStage "breast" features)
      with (stageBreastCancer features).
    unfold stageBreastCancer.
    rewrite Hm, Hn, Hle, (gt_not_le _ _ Hgt). reflexivity.
  - intros Hz Hi.
    change (determineTNMStage "gallbladder" features)
      with (stageGallbladderCancer features).
    unfold stageGallbladderCancer.
    destruct (strict_eq_le _ _ Hz) as [Hle _].
    assert (H2 : (tumor_size_cm features >? int 2)%js = false).
    { destruct (tumor_size_cm features >? int 2)%js eqn:E; [ | reflexivity ].
      apply gt_not_le in E.
      assert (H : (tumor_size_cm features <=? int 2)%js = true)
        by (eapply le_trans; [ exact Hle | reflexivity ]).
      congruence. }
    assert (H0 : (tumor_size_cm features >? int 0)%js = false).
    { destruct (tumor_size_cm features >? int 0)%js eqn:E; [ | reflexivity ].
      apply gt_not_le in E. congruence. }
    rewrite Hm, Hn, Hi, H2, H0. reflexivity.
Qed.

Lemma stage_unknown_inputs_witness :
  stage (determineTNMStage "breast" localized) = "Stage Unknown"
  /\ stage (determineTNMStage "gallbladder" nothing_found) = "Stage Unknown".
Proof.
  split.
  - exact (proj1 (stage_unknown_inputs localized eq_refl eq_refl)
             eq_refl eq_refl).
  - exact (proj2 (stage_unknown_inputs nothing_found eq_refl eq_refl)
             eq_refl eq_refl).
Defined.

(** ** [getTreatmentGuidelines] *)

(** C10. Every stage string with an 'I' and without a 'V' is put in stage
    group 'I', since that test comes first.  So for every cancer type of the
    table the stages 'Stage II' and 'Stage III' get the treatment text of
    group 'I', which is not the text of group 'II' nor that of group 'III'. *)
Theorem stage_II_and_III_get_group_I :
  (forall stage,
     includes stage "I" = true -> includes stage "V" = false ->
     stageGroup stage = "I")
  /\ (forall cancerType,
        In cancerType (map fst treatmentDict) ->
        exists text,
          treatmentOf cancerType "I" = Some text
          /\ getTreatmentGuidelines cancerType "Stage II" = text
          /\ getTreatmentGuidelines cancerType "Stage III" = text
          /\ treatmentOf cancerType "II" <> Some text
          /\ treatmentOf cancerType "III" <> Some text).
Proof.
  split.
  - intros stage HI HV. unfold stageGroup. now rewrite HI, HV.
  - intros cancerType H. simpl in H.
    repeat (destruct H as [<- | H];
            [ eexists; repeat split; try reflexivity; discriminate | ]).
    contradiction.
Qed.

Lemma stage_II_and_III_get_group_I_witness :
  stageGroup "Stage II–III" = "I"
  /\ exists text,
       treatmentOf "lung" "I" = Some text
       /\ getTreatmentGuidelines "lung" "Stage II" = text
       /\ getTreatmentGuidelines "lung" "Stage III" = text
       /\ treatmentOf "lung" "II" <> Some text
       /\ treatmentOf "lung" "III" <> Some text.
Proof.
  split.
  - exact (proj1 stage_II_and_III_get_group_I "Stage II–III" eq_refl eq_refl).
  - apply (proj2 stage_II_and_III_get_group_I "lung").
    simpl. tauto.
Defined.

(** ** The order of the T and N categories *)









(** For head and neck cancer the test [=== 1] also breaks the order between
    whole counts: half a node gives N2 and one node gives N1. *)
Lemma N_head_neck_not_monotone_on_fractions :
  let f1 := with_nodes (fin 0.5%Q) in
  let f2 := with_nodes (int 1) in
  (lymph_nodes_involved f1 <=? lymph_nodes_involved f2)%js = true
  /\ N (determineTNMStage "head and neck" f1) = "N2"
  /\ N (determineTNMStage "head and neck" f2) = "N1".
Proof.
  repeat split.
Qed.



(** ** [processDocument] and [processPDF] *)

Import DocumentProcessor.

Lemma append_assoc (a b c : string) : (a ++ b) ++ c = a ++ (b ++ c).
Proof.
  induction a as [| x a IH]; simpl; [ reflexivity | now rewrite IH ].
Qed.



(** What [processDocument] does with the outcome of the branches of its
    [try] block. *)
Lemma processDocument_outcome (lib : Libraries) (file : File) (p : Processor) :
  processDocument lib file p =
  match processByType lib file p with
  | (Returns (text, confidence, method, pageCount), p') =>
      (Returns
         {| text := text; confidence := confidence; method := method;
            processing_time :=
              div (sub (Date_now lib 1) (Date_now lib 0)) (int 1000);
            page_count := pageCount;
            file_info := (name file, size file, type file) |}, p')
  | (Throws error, p') =>
      (Throws (Error ("Document processing failed: " ++ message_of error)), p')
  end.
Proof.
  unfold processDocument, try_catch, bind, ret, throw.
  destruct (processByType lib file p) as [[[[[text confidence] method] pages] | e] p'];
    reflexivity.
Qed.

Lemma processByType_accepted (lib : Libraries) (file : File) (p : Processor) :
  accepted (type file) = false ->
  processByType lib file p = (Throws (Error "Unsupported file type"), p).
Proof.
  unfold accepted, processByType. intros H.
  apply orb_false_iff in H as [H H3]. apply orb_false_iff in H as [H1 H2].
  now rewrite H1, H2, H3.
Qed.

Lemma processByType_returns_accepted (lib : Libraries) (file : File)
  (p p' : Processor) vals :
  processByType lib file p = (Returns vals, p') -> accepted (type file) = true.
Proof.
  destruct (accepted (type file)) eqn:E; [ reflexivity | ].
  rewrite (processByType_accepted _ _ _ E). discriminate.
Qed.

(** An error of a library call goes through two handlers: the one of the
    method of the upload kind and the one of [processDocument]. *)
Lemma library_error_is_rethrown (lib : Libraries) (file : File)
  (p : Processor) (error : thrown) :
  arrayBuffer lib file = Throws error ->
  (type file = "application/pdf" ->
   processDocument lib file p =
   (Throws (Error ("Document processing failed: "
                   ++ "PDF processing failed: " ++ message_of error)), p))
  /\ (type file = docx_type ->
      processDocument lib file p =
      (Throws (Error ("Document processing failed: "
                      ++ "DOCX processing failed: " ++ message_of error)), p)).
Proof.
  intros H. rewrite processDocument_outcome.
  unfold processByType, processPDF, processDOCX, try_catch, bind, call, throw.
  split; intros Ht; rewrite Ht, H.
  - rewrite String.eqb_refl. reflexivity.
  - assert (E : (docx_type =? "application/pdf") = false) by reflexivity.
    rewrite E, String.eqb_refl. reflexivity.
Qed.

(** Nothing in [extractFeatures] throws or touches the processor. *)
Lemma extractFeatures_pure (text : string) :
  exists features, forall p, extractFeatures text p = (Returns features, p).
Proof.
  eexists. intros p. reflexivity.
Qed.

(** C4. [processDocument] accepts the three upload kinds PDF, DOCX and image:
    for a file of any other MIME type it throws, and for an accepted file it
    returns the [OCRResult] built from the result of [processPDF],
    [processDOCX] or [processImage].  Whatever is thrown inside, by these
    methods or by the libraries under them, is rethrown as an [Error] whose
    message starts with 'Document processing failed: ', and nothing else is
    done about it. *)
Theorem processDocument_accepts_three_kinds
  (lib : Libraries) (file : File) (p : Processor) :
  (accepted (type file) = false ->
   processDocument lib file p =
   (Throws (Error "Document processing failed: Unsupported file type"), p))
  /\ (forall result p',
        processDocument lib file p = (Returns result, p') ->
        accepted (type file) = true
        /\ file_info result = (name file, size file, type file))
  /\ (type file = "application/pdf" ->
      forall pdf p', processPDF lib file p = (Returns pdf, p') ->
      exists result,
        processDocument lib file p = (Returns result, p')
        /\ text result = pdf_text pdf /\ confidence result = pdf_confidence pdf
        /\ method result = pdf_method pdf /\ page_count result = pageCount pdf)
  /\ (type file = docx_type ->
      forall value p', processDOCX lib file p = (Returns value, p') ->
      exists result,
        processDocument lib file p = (Returns result, p')
        /\ text result = value /\ confidence result = fin 0.95%Q
        /\ method result = "docx_extraction" /\ page_count result = 1%nat)
  /\ (startsWith (type file) "image/" = true ->
      forall ocr p', processImage lib file p = (Returns ocr, p') ->
      exists result,
        processDocument lib file p = (Returns result, p')
        /\ text result = fst ocr /\ confidence result = snd ocr
        /\ method result = "tesseract_ocr" /\ page_count result = 1%nat)
  /\ (forall thrown p',
        processDocument lib file p = (Throws thrown, p') ->
        exists inner,
          processByType lib file p = (Throws inner, p')
          /\ thrown =
             Error ("Document processing failed: " ++ message_of inner)).
Proof.
  rewrite processDocument_outcome.
  split; [ | split; [ | split; [ | split; [ | split ] ] ] ].
  - intros H. now rewrite (processByType_accepted _ _ _ H).
  - intros result p' H.
    destruct (processByType lib file p)
      as [[[[[t c] m] n] | e] q] eqn:E; [ | discriminate ].
    injection H as <- <-. split; [ | reflexivity ].
    eapply processByType_returns_accepted; eauto.
  - intros Ht pdf p' H. unfold processByType, bind, ret.
    rewrite Ht, String.eqb_refl, H. eexists. repeat split.
  - intros Ht value p' H. unfold processByType, bind, ret.
    assert (E : (docx_type =? "application/pdf") = false) by reflexivity.
    rewrite Ht, E, String.eqb_refl, H. eexists. repeat split.
  - intros Ht [t c] p' H. unfold processByType, bind, ret.
    destruct (type file =? "application/pdf") eqn:E1.
    { apply String.eqb_eq in E1. rewrite E1 in Ht. discriminate. }
    destruct (type file =? docx_type) eqn:E2.
    { apply String.eqb_eq in E2. rewrite E2 in Ht. discriminate. }
    rewrite Ht, H. eexists. repeat split.
  - intros thrown p' H.
    destruct (processByType lib file p)
      as [[[[[t c] m] n] | e] q] eqn:E; [ discriminate | ].
    injection H as <- <-. exists e. split; reflexivity.
Qed.

Lemma processDocument_accepts_three_kinds_witness :
  processDocument library notes newProcessor =
    (Throws (Error "Document processing failed: Unsupported file type"),
     newProcessor)
  /\ (exists result,
        processDocument library reportDocx newProcessor
        = (Returns result, newProcessor)
        /\ text result = blob reportDocx
        /\ confidence result = fin 0.95%Q
        /\ method result = "docx_extraction" /\ page_count result = 1%nat).
Proof.
  split.
  - exact (proj1 (processDocument_accepts_three_kinds library notes newProcessor)
             eq_refl).
  - exact (proj1 (proj2 (proj2 (proj2
             (processDocument_accepts_three_kinds library reportDocx newProcessor))))
             eq_refl (blob reportDocx) newProcessor eq_refl).
Defined.



(** ** The progress indicator *)

Import Page.

(** After a run that succeeds the five steps are shown as completed. *)
Lemma successful_run_completes_all_steps
  (lib : Libraries) (file : File) (p : Processor) (s : AppState) :
  forall ocr p1,
    processDocument lib file p = (Returns ocr, p1) ->
    let s' := fst (after_run lib file p s) in
    current_step s' = 5%Z
    /\ completedSteps s' = map id steps
    /\ Forall (fun step =>
                 getStepStatus (current_step s') (completedSteps s') (id step)
                 = "completed") steps.
Proof.
  intros ocr p1 H. unfold after_run, handleFileSelect. rewrite H.
  destruct (extractFeatures_pure (text ocr)) as [features Hf]. rewrite Hf.
  cbn. repeat split. repeat constructor.
Qed.




(** ** The matcher *)

Import RegExp Utils.

(** A continuation only matters through its values. *)
Lemma iterate_ext
  (body : string -> captures -> continuation -> option state)
  (greedy : bool) (k1 k2 : continuation) :
  (forall s c j1 j2, (forall s' c', j1 s' c' = j2 s' c') ->
                     body s c j1 = body s c j2) ->
  (forall s c, k1 s c = k2 s c) ->
  forall fuel s caps,
    iterate body greedy k1 fuel s caps = iterate body greedy k2 fuel s caps.
Proof.
  intros Hbody Hk. induction fuel as [| fuel IH]; intros s caps;
    [ reflexivity | ].
  cbn [iterate].
  rewrite (Hbody s caps _
             (fun s1 c1 =>
                if (String.length s1 <? String.length s)%nat
                then iterate body greedy k2 fuel s1 c1 else None)).
  - rewrite Hk. reflexivity.
  - intros s' c'. now rewrite IH.
Qed.

Lemma run_ext (i : bool) (r : regex) :
  forall s caps (k1 k2 : continuation),
    (forall s' c', k1 s' c' = k2 s' c') ->
    run i r s caps k1 = run i r s caps k2.
Proof.
  induction r as [| cs | r1 IH1 r2 IH2 | r1 IH1 r2 IH2 | g r1 IH1 | g r1 IH1
                  | n r1 IH1]; intros s caps k1 k2 Hk; cbn [run].
  - apply Hk.
  - destruct s as [| c s]; [ reflexivity | ]. now rewrite Hk.
  - apply IH1. intros s' c'. now apply IH2.
  - now rewrite (IH1 _ _ _ _ Hk), (IH2 _ _ _ _ Hk).
  - apply iterate_ext; [ | exact Hk ].
    intros s0 c0 j1 j2 Hj. now apply IH1.
  - rewrite (IH1 s (reset (groups_of r1) caps) _
               (fun s1 c1 =>
                  if (String.length s1 <? String.length s)%nat
                  then k2 s1 c1 else None)).
    + now rewrite Hk.
    + intros s' c'. now rewrite Hk.
  - apply IH1. intros s' c'. apply Hk.
Qed.

(** Fuel beyond the length of the input changes nothing: the fuel of a star
    never runs out. *)
Lemma iterate_fuel
  (body : string -> captures -> continuation -> option state)
  (greedy : bool) (k : continuation) :
  (forall s c j1 j2, (forall s' c', j1 s' c' = j2 s' c') ->
                     body s c j1 = body s c j2) ->
  forall n m s caps,
    (String.length s < n)%nat -> (String.length s < m)%nat ->
    iterate body greedy k n s caps = iterate body greedy k m s caps.
Proof.
  intros Hbody. induction n as [| n IH]; intros m s caps Hn Hm; [ lia | ].
  destruct m as [| m]; [ lia | ].
  cbn [iterate].
  rewrite (Hbody s caps _
             (fun s1 c1 =>
                if (String.length s1 <? String.length s)%nat
                then iterate body greedy k m s1 c1 else None));
    [ reflexivity | ].
  intros s' c'.
  destruct (String.length s' <? String.length s)%nat eqn:E; [ | reflexivity ].
  apply Nat.ltb_lt in E. apply IH; lia.
Qed.

Lemma star_fuel (i greedy : bool) (r : regex) (k : continuation)
  (s : string) (caps : captures) (extra : nat) :
  iterate (fun s0 c0 k0 => run i r s0 (reset (groups_of r) c0) k0)
    greedy k (S (String.length s) + extra) s caps
  = run i (Star greedy r) s caps k.
Proof.
  cbn [run]. apply iterate_fuel; [ | lia | lia ].
  intros s0 c0 j1 j2 Hj. now apply run_ext.
Qed.

Lemma suffix_of_refl (s : string) : suffix_of s s.
Proof.
  now exists "".
Qed.

Lemma suffix_of_trans (a b c : string) :
  suffix_of a b -> suffix_of b c -> suffix_of a c.
Proof.
  intros [x ->] [y ->]. exists (y ++ x). now rewrite append_assoc.
Qed.

Lemma suffix_of_tail (c : ascii) (s : string) : suffix_of s (String c s).
Proof.
  now exists (String c "").
Qed.

Lemma or_try_Some (a : option state) (b : unit -> option state) (res : state) :
  or_try a b = Some res -> a = Some res \/ (a = None /\ b tt = Some res).
Proof.
  destruct a; simpl; intros H; [ left | right ]; auto.
Qed.

Lemma capture_reset (ns : list nat) (caps : captures) (n : nat) :
  ~ In n ns -> capture (reset ns caps) n = capture caps n.
Proof.
  unfold reset. induction ns as [| m ns IH]; intros H; [ reflexivity | ].
  cbn [map app capture].
  destruct (Nat.eqb_spec n m) as [-> | _].
  - exfalso. apply H. now left.
  - apply IH. intros Hin. apply H. now right.
Qed.

Lemma iterate_continues (i : bool) (r : regex) (greedy : bool)
  (k : continuation) :
  (forall s caps j res, run i r s caps j = Some res -> continued r s caps j res) ->
  forall fuel s caps res,
    iterate (fun s0 c0 k0 => run i r s0 (reset (groups_of r) c0) k0)
      greedy k fuel s caps = Some res ->
    continued r s caps k res.
Proof.
  intros Hbody. induction fuel as [| fuel IH]; intros s caps res H;
    [ discriminate | ].
  cbn [iterate] in H.
  assert (Hagain :
    run i r s (reset (groups_of r) caps)
      (fun s1 c1 =>
         if (String.length s1 <? String.length s)%nat
         then iterate (fun s0 c0 k0 => run i r s0 (reset (groups_of r) c0) k0)
                greedy k fuel s1 c1
         else None) = Some res ->
    continued r s caps k res).
  { intros Hr. apply Hbody in Hr as (s1 & c1 & Hk & Hsuf & Hcap).
    destruct (String.length s1 <? String.length s)%nat; [ | discriminate ].
    apply IH in Hk as (s2 & c2 & Hk2 & Hsuf2 & Hcap2).
    exists s2, c2. split; [ exact Hk2 | split ].
    - eapply suffix_of_trans; eauto.
    - intros n Hn. rewrite Hcap2, Hcap by assumption.
      now apply capture_reset. }
  assert (Hskip : k s caps = Some res -> continued r s caps k res).
  { intros Hk. exists s, caps. split; [ exact Hk | split ].
    - apply suffix_of_refl.
    - reflexivity. }
  destruct greedy; apply or_try_Some in H as [H | [_ H]]; auto.
Qed.

Lemma run_continues (i : bool) (r : regex) :
  forall s caps k res, run i r s caps k = Some res -> continued r s caps k res.
Proof.
  induction r as [| cs | r1 IH1 r2 IH2 | r1 IH1 r2 IH2 | g r1 IH1 | g r1 IH1
                  | n r1 IH1]; intros s caps k res H; cbn [run] in H.
  - exists s, caps. split; [ exact H | split; [ apply suffix_of_refl | ] ].
    reflexivity.
  - destruct s as [| c s]; [ discriminate | ].
    destruct (mem i cs c); [ | discriminate ].
    exists s, caps. split; [ exact H | split; [ apply suffix_of_tail | ] ].
    reflexivity.
  - apply IH1 in H as (s1 & c1 & H & Hsuf1 & Hcap1).
    apply IH2 in H as (s2 & c2 & H & Hsuf2 & Hcap2).
    exists s2, c2. split; [ exact H | split ].
    + eapply suffix_of_trans; eauto.
    + intros n Hn. cbn [groups_of] in Hn. rewrite in_app_iff in Hn.
      rewrite Hcap2, Hcap1; tauto.
  - apply or_try_Some in H as [H | [_ H]].
    + apply IH1 in H as (s1 & c1 & H & Hsuf1 & Hcap1).
      exists s1, c1. split; [ exact H | split; [ exact Hsuf1 | ] ].
      intros n Hn. cbn [groups_of] in Hn. rewrite in_app_iff in Hn.
      apply Hcap1. tauto.
    + apply IH2 in H as (s1 & c1 & H & Hsuf1 & Hcap1).
      exists s1, c1. split; [ exact H | split; [ exact Hsuf1 | ] ].
      intros n Hn. cbn [groups_of] in Hn. rewrite in_app_iff in Hn.
      apply Hcap1. tauto.
  - eapply iterate_continues in H; eauto.
  - assert (Honce :
      run i r1 s (reset (groups_of r1) caps)
        (fun s1 c1 =>
           if (String.length s1 <? String.length s)%nat
           then k s1 c1 else None) = Some res ->
      continued (Opt g r1) s caps k res).
    { intros Hr. apply IH1 in Hr as (s1 & c1 & Hk & Hsuf & Hcap).
      destruct (String.length s1 <? String.length s)%nat; [ | discriminate ].
      exists s1, c1. split; [ exact Hk | split; [ exact Hsuf | ] ].
      intros n Hn. rewrite Hcap by exact Hn. now apply capture_reset. }
    assert (Hskip : k s caps = Some res -> continued (Opt g r1) s caps k res).
    { intros Hk. exists s, caps.
      split; [ exact Hk | split; [ apply suffix_of_refl | reflexivity ] ]. }
    destruct g; apply or_try_Some in H as [H | [_ H]]; auto.
  - apply IH1 in H as (s1 & c1 & H & Hsuf1 & Hcap1).
    exists s1, ((n, Some (consumed s s1)) :: c1).
    split; [ exact H | split; [ exact Hsuf1 | ] ].
    intros m Hm. cbn [groups_of] in Hm. cbn [capture].
    destruct (Nat.eqb_spec m n) as [-> | _].
    + exfalso. apply Hm. now left.
    + apply Hcap1. intros Hin. apply Hm. now right.
Qed.

Lemma run_Seq (i : bool) (r1 r2 : regex) (s : string) (caps : captures)
  (k : continuation) (res : state) :
  run i (Seq r1 r2) s caps k = Some res ->
  exists s1 c1,
    run i r2 s1 c1 k = Some res
    /\ suffix_of s1 s
    /\ forall n, ~ In n (groups_of r1) -> capture c1 n = capture caps n.
Proof.
  cbn [run]. intros H. exact (run_continues i r1 _ _ _ _ H).
Qed.

Lemma run_Seq_Group (i : bool) (n : nat) (r r2 : regex) (s : string)
  (caps : captures) (k : continuation) (res : state) :
  run i (Seq (Group n r) r2) s caps k = Some res ->
  exists s1 c1,
    run i r2 s1 ((n, Some (consumed s s1)) :: c1) k = Some res
    /\ suffix_of s1 s
    /\ forall m, ~ In m (groups_of r) -> capture c1 m = capture caps m.
Proof.
  cbn [run]. intros H. exact (run_continues i r _ _ _ _ H).
Qed.

(** Both groups of [sizePattern] take part in every match. *)
Lemma sizePattern_captures (i : bool) (s : string) (res : state) :
  run i sizePattern s [] (fun rest caps => Some (rest, caps)) = Some res ->
  exists size unit_,
    capture (snd res) 1 = Some size /\ capture (snd res) 2 = Some unit_.
Proof.
  unfold sizePattern. cbn [Seqs]. intros H.
  do 6 (apply run_Seq in H as (? & ? & H & _ & _)).
  apply run_Seq_Group in H as (s1 & c1 & H & _ & _).
  apply run_Seq in H as (s2 & c2 & H & _ & H2).
  apply run_Seq in H as (s3 & c3 & H & _ & H3).
  apply run_Seq in H as (s4 & c4 & H & _ & H4).
  apply run_Seq_Group in H as (s5 & c5 & H & _ & H5).
  cbn [run] in H. injection H as <-.
  eexists _, _. split; [ | reflexivity ].
  cbn [snd capture Nat.eqb].
  rewrite H5, H4, H3, H2; try (cbn; tauto); reflexivity.
Qed.

(** A match found by [search] is a match of the pattern at some suffix. *)
Lemma search_found (i : bool) (r : regex) :
  forall s at_ m e,
    search i r s at_ = Some (m, e) ->
    exists s0 rest,
      suffix_of s0 s
      /\ run i r s0 [] (fun rest caps => Some (rest, caps))
         = Some (rest, groups m)
      /\ matched m = consumed s0 rest
      /\ suffix_of rest s0.
Proof.
  induction s as [| c s IH]; intros at_ m e H; cbn [search] in H.
  - destruct (run i r "" [] (fun rest caps => Some (rest, caps)))
      as [[rest caps] |] eqn:E; [ | discriminate ].
    injection H as <- _. exists "", rest. cbn.
    split; [ apply suffix_of_refl | split; [ exact E | split; [ reflexivity | ] ] ].
    apply run_continues in E as (s' & c' & [= <- <-] & Hsuf & _). exact Hsuf.
  - destruct (run i r (String c s) [] (fun rest caps => Some (rest, caps)))
      as [[rest caps] |] eqn:E.
    + injection H as <- _. exists (String c s), rest. cbn.
      split; [ apply suffix_of_refl | split; [ exact E | split; [ reflexivity | ] ] ].
      apply run_continues in E as (s' & c' & [= <- <-] & Hsuf & _). exact Hsuf.
    + apply IH in H as (s0 & rest & Hs0 & Hrun & Hm & Hrest).
      exists s0, rest. split; [ | auto ].
      eapply suffix_of_trans; [ exact Hs0 | apply suffix_of_tail ].
Qed.

(** Every element of [matchAll] was found by a search from some position of
    the text. *)
Lemma matchAll_from_found (P : MatchResult -> Prop) (src : regex)
  (ic : bool) (s : string) :
  (forall start m e,
     search ic src (drop start s) start = Some (m, e) -> P m) ->
  forall fuel re,
    source re = src -> ignoreCase re = ic ->
    Forall P (matchAll_from fuel re s).
Proof.
  intros HP. induction fuel as [| fuel IH]; intros re Hsrc Hic;
    [ constructor | ].
  cbn [matchAll_from]. unfold exec.
  destruct (String.length s <? (if global re then lastIndex re else 0))%nat;
    [ constructor | ].
  rewrite Hsrc, Hic.
  destruct (search ic src (drop (if global re then lastIndex re else 0) s)
              (if global re then lastIndex re else 0))
    as [[m e] |] eqn:E; [ | constructor ].
  constructor; [ eapply HP; eauto | ].
  apply IH; destruct (matched m =? ""), (global re); assumption.
Qed.

Lemma sizePattern_matches_have_groups (text : string) :
  Forall (fun m => exists size unit_,
                     group m 1 = Some size /\ group m 2 = Some unit_)
    (matchAll text (literal sizePattern true true)).
Proof.
  unfold matchAll. apply (matchAll_from_found _ sizePattern true);
    [ | reflexivity | reflexivity ].
  intros start m e H.
  apply search_found in H as (s1 & rest & _ & Hrun & _ & _).
  apply sizePattern_captures in Hrun. exact Hrun.
Qed.

(** So the size of a match is always read from its two groups. *)
Lemma matchSize_reads_groups (text : string) :
  Forall (fun m => exists size unit_,
                     group m 1 = Some size /\ group m 2 = Some unit_
                     /\ matchSize m =
                        if toLowerCase unit_ =? "mm"
                        then div (Parse.parseFloat size) (int 10)
                        else Parse.parseFloat size)
    (matchAll text (literal sizePattern true true)).
Proof.
  eapply Forall_impl; [ | apply sizePattern_matches_have_groups ].
  intros m (size & unit_ & H1 & H2). exists size, unit_.
  unfold matchSize. rewrite H1, H2. auto.
Qed.

(** *** Matches are pieces of the text *)

Lemma length_append (a b : string) :
  String.length (a ++ b) = (String.length a + String.length b)%nat.
Proof.
  induction a as [| c a IH]; simpl; [ reflexivity | now rewrite IH ].
Qed.

Lemma substring_append (a b : string) :
  String.substring 0 (String.length a) (a ++ b) = a.
Proof.
  induction a as [| c a IH]; simpl.
  - destruct b; reflexivity.
  - now rewrite IH.
Qed.

Lemma consumed_append (before rest : string) :
  consumed (before ++ rest) rest = before.
Proof.
  unfold consumed. rewrite length_append.
  replace (String.length before + String.length rest - String.length rest)%nat
    with (String.length before) by lia.
  apply substring_append.
Qed.

Lemma substring_drop (n len : nat) (s : string) :
  String.substring n len s = String.substring 0 len (drop n s).
Proof.
  revert s. induction n as [| n IH]; intros s; [ reflexivity | ].
  destruct s as [| c s]; cbn [drop String.substring].
  - destruct len; reflexivity.
  - apply IH.
Qed.

Lemma drop_drop (n m : nat) (s : string) :
  drop n (drop m s) = drop (m + n) s.
Proof.
  revert s. induction m as [| m IH]; intros s; [ reflexivity | ].
  destruct s as [| c s]; cbn [drop Nat.add].
  - destruct n; reflexivity.
  - apply IH.
Qed.

(** The match that [search] finds from the position [at_] of a text starts
    at [index m], at or after [at_], holds the characters of the text from
    there, and ends at the index that is returned. *)
Lemma search_index (i : bool) (r : regex) (text : string) :
  forall s at_ m e,
    s = drop at_ text ->
    search i r s at_ = Some (m, e) ->
    (at_ <= index m)%nat
    /\ e = (index m + String.length (matched m))%nat
    /\ matched m
       = String.substring (index m) (String.length (matched m)) text.
Proof.
  induction s as [| c s IH]; intros at_ m e Hs H; cbn [search] in H.
  - destruct (run i r "" [] (fun rest caps => Some (rest, caps)))
      as [[rest caps] |] eqn:E; [ | discriminate ].
    injection H as <- <-. cbn [index matched].
    apply run_continues in E as (s' & c' & [= <- <-] & [before Hb] & _).
    destruct before; [ | discriminate ]. cbn in Hb. subst s'.
    cbn. split; [ lia | split; [ reflexivity | ] ].
    rewrite substring_drop, <- Hs. reflexivity.
  - destruct (run i r (String c s) [] (fun rest caps => Some (rest, caps)))
      as [[rest caps] |] eqn:E.
    + injection H as <- <-. cbn [index matched].
      apply run_continues in E as (s' & c' & [= <- <-] & [before Hb] & _).
      rewrite Hb, consumed_append.
      split; [ lia | split; [ reflexivity | ] ].
      rewrite substring_drop, <- Hs, Hb. symmetry. apply substring_append.
    + apply (IH (S at_)) in H; [ intuition lia | ].
      replace (S at_) with (at_ + 1)%nat by lia.
      rewrite <- drop_drop, <- Hs. reflexivity.
Qed.


(** The fuel of [matchAll] is never used up: a match moves [lastIndex]
    forward, so more fuel gives the same matches. *)
Lemma matchAll_from_fuel (s : string) :
  forall n m re,
    global re = true ->
    (S (S (String.length s)) - lastIndex re <= n)%nat ->
    (S (S (String.length s)) - lastIndex re <= m)%nat ->
    matchAll_from n re s = matchAll_from m re s.
Proof.
  assert (Hend : forall fuel re,
            global re = true ->
            (String.length s < lastIndex re)%nat ->
            matchAll_from fuel re s = []).
  { intros [| fuel] re Hg Hlt; [ reflexivity | ].
    cbn [matchAll_from]. unfold exec. rewrite Hg.
    apply Nat.ltb_lt in Hlt. now rewrite Hlt. }
  induction n as [| n IH]; intros m re Hg Hn Hm.
  - rewrite (Hend m) by (assumption || lia). reflexivity.
  - destruct m as [| m].
    + rewrite (Hend (S n)) by (assumption || lia). reflexivity.
    + cbn [matchAll_from]. unfold exec. rewrite Hg.
      destruct (String.length s <? lastIndex re)%nat eqn:Elen;
        [ reflexivity | ].
      apply Nat.ltb_ge in Elen.
      destruct (search (ignoreCase re) (source re) (drop (lastIndex re) s)
                  (lastIndex re)) as [[mr e] |] eqn:E; [ | reflexivity ].
      f_equal.
      apply (search_index _ _ s) in E as (Hidx & He & _); [ | reflexivity ].
      destruct (String.eqb_spec (matched mr) "") as [Hempty | Hfull].
      * apply IH; cbn [global lastIndex set_lastIndex];
          [ exact Hg | lia | lia ].
      * assert (String.length (matched mr) <> 0)%nat.
        { destruct (matched mr); [ congruence | cbn; lia ]. }
        apply IH; cbn [global lastIndex set_lastIndex];
          [ exact Hg | lia | lia ].
Qed.

Lemma matchAll_fuel (text : string) (re : t) (extra : nat) :
  global re = true ->
  matchAll_from (S (S (String.length text)) + extra)
    (set_lastIndex re (lastIndex re)) text
  = matchAll text re.
Proof.
  intros Hg. unfold matchAll.
  apply matchAll_from_fuel; cbn [global lastIndex set_lastIndex];
    [ exact Hg | lia | lia ].
Qed.

(** *** Words matched without regard to case *)

Lemma nat_of_ascii_inj (a c : ascii) : nat_of_ascii a = nat_of_ascii c -> a = c.
Proof.
  intros H. rewrite <- (ascii_nat_embedding a), <- (ascii_nat_embedding c).
  now rewrite H.
Qed.

(** A character that is a lower-case letter after [Canonicalize] is that
    letter in lower case. *)
Lemma canon_lower (a c : ascii) :
  is_lower a = true ->
  Ascii.eqb (upper_char a) (upper_char c) = true ->
  lower_char c = a.
Proof.
  unfold upper_char, lower_char, is_lower, is_upper.
  intros Ha. rewrite Ha.
  apply andb_true_iff in Ha as [Ha1 Ha2].
  apply Nat.leb_le in Ha1, Ha2.
  pose proof (nat_ascii_bounded a) as Hba.
  pose proof (nat_ascii_bounded c) as Hbc.
  intros H. apply Ascii.eqb_eq in H.
  destruct ((97 <=? nat_of_ascii c)%nat && (nat_of_ascii c <=? 122)%nat)
    eqn:Ec.
  - apply andb_true_iff in Ec as [Ec1 Ec2]. apply Nat.leb_le in Ec1, Ec2.
    apply (f_equal nat_of_ascii) in H.
    rewrite !nat_ascii_embedding in H by lia.
    assert (Hac : nat_of_ascii a = nat_of_ascii c) by lia.
    apply nat_of_ascii_inj in Hac. subst c.
    destruct ((65 <=? nat_of_ascii a)%nat && (nat_of_ascii a <=? 90)%nat)
      eqn:Eu; [ | reflexivity ].
    apply andb_true_iff in Eu as [_ Eu]. apply Nat.leb_le in Eu. lia.
  - subst c. rewrite nat_ascii_embedding by lia.
    assert (Eu : ((65 <=? nat_of_ascii a - 32)%nat
                  && (nat_of_ascii a - 32 <=? 90)%nat) = true).
    { apply andb_true_iff. split; apply Nat.leb_le; lia. }
    rewrite Eu.
    replace (nat_of_ascii a - 32 + 32)%nat with (nat_of_ascii a) by lia.
    apply ascii_nat_embedding.
Qed.

Lemma toLowerCase_append (a b : string) :
  toLowerCase (a ++ b) = toLowerCase a ++ toLowerCase b.
Proof.
  induction a as [| c a IH]; simpl; [ reflexivity | now rewrite IH ].
Qed.

Lemma prefix_append (w x : string) : String.prefix w (w ++ x) = true.
Proof.
  induction w as [| c w IH]; simpl.
  - destruct x; reflexivity.
  - destruct (ascii_dec c c); [ exact IH | contradiction ].
Qed.

(** With the flag [i], a pattern that spells a lower-case word matches the
    characters that are this word in lower case. *)
Lemma run_Lit_ignoreCase (word : string) :
  all_lower word = true ->
  forall s caps k res,
    run true (Lit word) s caps k = Some res ->
    exists before rest,
      s = before ++ rest /\ toLowerCase before = word
      /\ k rest caps = Some res.
Proof.
  induction word as [| a word IH]; intros Hw s caps k res H.
  - exists "", s. auto.
  - cbn [all_lower] in Hw. apply andb_true_iff in Hw as [Ha Hw].
    cbn [Lit run mem] in H.
    destruct s as [| c s]; [ discriminate | ].
    destruct (Ascii.eqb (upper_char a) (upper_char c)) eqn:E;
      [ | discriminate ].
    apply (IH Hw) in H as (before & rest & -> & Hlow & Hk).
    exists (String c before), rest. cbn [append toLowerCase].
    now rewrite (canon_lower _ _ Ha E), Hlow.
Qed.





(** ** The extractors *)









(** ** Determinism *)





(** * Further properties of the code *)

Import Terms.

(** ** The staging tables *)

Lemma gt_2_gt_0 (a : number) : (a >? int 2)%js = true -> (a >? int 0)%js = true.
Proof.
  unfold gt. destruct a; simpl; try congruence.
  rewrite !negb_true_iff. unfold Qle_bool. simpl.
  rewrite !Z.leb_gt. lia.
Qed.

(** X1.  The stage 'Stage Unknown', table by table: the findings that no row
    covers.  The table of esophageal cancer is total. *)
Theorem stage_unknown_exactly_when (f : MedicalFeatures) :
  (stage (stageGallbladderCancer f) = "Stage Unknown" <->
   distant_metastasis f = false /\ liver_invasion f = false
   /\ (tumor_size_cm f >? int 0)%js = false)
  /\ stage (stageEsophagealCancer f) <> "Stage Unknown"
  /\ (stage (stageBreastCancer f) = "Stage Unknown" <->
      distant_metastasis f = false
      /\ (tumor_size_cm f <=? int 2)%js = false
      /\ (tumor_size_cm f <=? int 5)%js = true
      /\ (lymph_nodes_involved f === int 0)%js = true)
  /\ (stage (stageLungCancer f) = "Stage Unknown" <->
      distant_metastasis f = false
      /\ (tumor_size_cm f <=? int 3)%js = true
      /\ (lymph_nodes_involved f === int 0)%js = false
      /\ (lymph_nodes_involved f <=? int 3)%js = true)
  /\ (stage (stageColorectalCancer f) = "Stage Unknown" <->
      distant_metastasis f = false
      /\ (lymph_nodes_involved f === int 0)%js = true
      /\ ~ In (toLowerCase (tumor_depth f))
             ["submucosa"; "muscularis propria"; "subserosa"])
  /\ (stage (stageHeadNeckCancer f) = "Stage Unknown" <->
      distant_metastasis f = false
      /\ (tumor_size_cm f <=? int 2)%js = false
      /\ (tumor_size_cm f <=? int 4)%js = true
      /\ (lymph_nodes_involved f === int 0)%js = true).
Proof.
  split; [ | split; [ | split; [ | split; [ | split ] ] ] ].
  - unfold stageGallbladderCancer. cbn [stage].
    destruct (distant_metastasis f), (liver_invasion f);
      destruct (tumor_size_cm f >? int 2)%js eqn:E2;
      try (rewrite (gt_2_gt_0 _ E2));
      destruct (tumor_size_cm f >? int 0)%js;
      destruct (lymph_nodes_involved f === int 0)%js;
      destruct (lymph_nodes_involved f <=? int 3)%js;
      cbn; intuition congruence.
  - unfold stageEsophagealCancer. cbn [stage].
    destruct (distant_metastasis f);
      repeat match goal with
             | |- context [if ?b then _ else _] => destruct b
             end; discriminate.
  - unfold stageBreastCancer. cbn [stage].
    destruct (distant_metastasis f);
      destruct (tumor_size_cm f <=? int 2)%js;
      destruct (tumor_size_cm f <=? int 5)%js;
      destruct (lymph_nodes_involved f === int 0)%js;
      destruct (lymph_nodes_involved f <=? int 3)%js;
      destruct (lymph_nodes_involved f <=? int 9)%js;
      cbn; intuition congruence.
  - unfold stageLungCancer. cbn [stage].
    destruct (distant_metastasis f);
      destruct (tumor_size_cm f <=? int 3)%js;
      destruct (tumor_size_cm f <=? int 5)%js;
      destruct (tumor_size_cm f <=? int 7)%js;
      destruct (lymph_nodes_involved f === int 0)%js;
      destruct (lymph_nodes_involved f <=? int 3)%js;
      cbn; intuition congruence.
  - unfold stageColorectalCancer. cbn [stage].
    generalize (toLowerCase (tumor_depth f)). intros depth.
    unfold get. cbn [own].
    repeat match goal with
           | |- context [String.eqb depth ?k] =>
               destruct (String.eqb_spec depth k)
           end;
      try match goal with
          | |- context [array_includes prototype_keys depth] =>
              destruct (array_includes prototype_keys depth)
          end;
      destruct (distant_metastasis f);
      destruct (lymph_nodes_involved f === int 0)%js;
      destruct (lymph_nodes_involved f <=? int 3)%js;
      cbn; intuition (congruence || (subst; discriminate)).
  - unfold stageHeadNeckCancer. cbn [stage].
    destruct (distant_metastasis f);
      destruct (tumor_size_cm f <=? int 2)%js;
      destruct (tumor_size_cm f <=? int 4)%js;
      destruct (lymph_nodes_involved f === int 0)%js;
      destruct (lymph_nodes_involved f === int 1)%js;
      destruct (lymph_nodes_involved f <=? int 3)%js;
      cbn; intuition congruence.
Qed.

(** The tests that a staging function makes, one by one. *)
Ltac stage_cases f :=
  cbn [among array_includes existsb];
  repeat match goal with
         | |- context [is_str ?t ?c] =>
             let b := fresh "b" in
             generalize (is_str t c); intros b; destruct b
         end;
  destruct (distant_metastasis f);
  try destruct (liver_invasion f);
  repeat match goal with
         | |- context [(tumor_size_cm f >? ?c)%js] =>
             destruct (tumor_size_cm f >? c)%js
         | |- context [(tumor_size_cm f <=? ?c)%js] =>
             destruct (tumor_size_cm f <=? c)%js
         | |- context [(lymph_nodes_involved f === ?c)%js] =>
             destruct (lymph_nodes_involved f === c)%js
         | |- context [(lymph_nodes_involved f <=? ?c)%js] =>
             destruct (lymph_nodes_involved f <=? c)%js
         end;
  cbn.

(** X2.  The description is never missing: it is the text of the stage in the
    table of the cancer type, or the fallback.  The fallback text stands for
    'Stage Unknown' and for nothing else; the table of esophageal cancer
    covers every stage; for head and neck the stages 'Stage II–III' and
    'Stage IV' have no entry, so that they are described by their own name. *)
Theorem descriptions_cover_the_stages (f : MedicalFeatures) :
  (forall cancerType,
     exists text,
       description (determineTNMStage cancerType f) = Str text
       /\ text <> "")
  /\ (forall name stager,
        In (name, stager) stagingTable ->
        In name ["gallbladder"; "breast"; "lung"; "colorectal"] ->
        description (stager f) = Str "Staging information not available"
        <-> stage (stager f) = "Stage Unknown")
  /\ description (stageEsophagealCancer f)
     <> Str (stage (stageEsophagealCancer f))
  /\ (description (stageHeadNeckCancer f) = Str (stage (stageHeadNeckCancer f))
      <-> ~ In (stage (stageHeadNeckCancer f)) ["Stage I"; "Stage IVC"]).
Proof.
  split; [ | split; [ | split ] ].
  - intros cancerType. rewrite determineTNMStage_table.
    destruct (stagerOf stagingTable (toLowerCase cancerType))
      as [stager |] eqn:E.
    + apply stagerOf_In in E. revert E.
      generalize (toLowerCase cancerType). intros name Hin.
      each_stager Hin; cbn [description stage]; stage_cases f;
        eexists; (split; [ reflexivity | discriminate ]).
    + cbn. eexists. split; [ reflexivity | discriminate ].
  - intros name stager Hin Hname.
    simpl in Hin.
    repeat (destruct Hin as [Hin | Hin]; [ injection Hin as <- <- | ]);
      try contradiction;
      try (exfalso; simpl in Hname; intuition discriminate);
      unfold stageGallbladderCancer, stageBreastCancer, stageLungCancer,
        stageColorectalCancer; cbn [description stage]; stage_cases f;
      split; intros H; (reflexivity || discriminate H).
  - unfold stageEsophagealCancer. cbn [description stage]. stage_cases f;
      discriminate.
  - unfold stageHeadNeckCancer. cbn [description stage]. stage_cases f;
      split; intros H;
      try reflexivity; try discriminate H;
      try (intros [H' | [H' | []]]; discriminate H');
      try (exfalso; apply H; simpl; tauto).
Qed.

Lemma witness_descriptions_cover_the_stages :
  description (stageBreastCancer localized)
  = Str "Staging information not available"
  /\ stage (stageBreastCancer localized) = "Stage Unknown".
Proof.
  assert (Hin : In ("breast", stageBreastCancer) stagingTable)
    by (simpl; tauto).
  assert (Hname : In "breast" ["gallbladder"; "breast"; "lung"; "colorectal"])
    by (simpl; tauto).
  pose proof (proj1 (proj2 (descriptions_cover_the_stages localized))
                "breast" stageBreastCancer Hin Hname) as H.
  split; [ exact (proj2 H eq_refl) | exact (proj1 H eq_refl) ].
Defined.

(** *** The depth of the tumor *)

Lemma is_upper_lower_char (c : ascii) : is_upper (lower_char c) = false.
Proof.
  unfold lower_char. destruct (is_upper c) eqn:E; [ | exact E ].
  unfold is_upper in *. apply andb_true_iff in E as [E1 E2].
  apply Nat.leb_le in E1, E2.
  rewrite nat_ascii_embedding by lia.
  apply andb_false_iff. right. apply Nat.leb_gt. lia.
Qed.

Lemma no_upper_toLowerCase (s : string) : no_upper (toLowerCase s) = true.
Proof.
  induction s as [| c s IH]; [ reflexivity | ].
  cbn [toLowerCase no_upper]. now rewrite is_upper_lower_char, IH.
Qed.

(** Of the keys that an object inherits, a string without upper-case letter
    can only be 'constructor' or '__proto__'. *)
Lemma inherited_lowered_key (k : string) :
  no_upper k = true ->
  array_includes prototype_keys k
  = (k =? "constructor") || (k =? "__proto__").
Proof.
  intros H.
  unfold array_includes, prototype_keys. cbn [existsb].
  repeat match goal with
         | |- context [String.eqb k ?n] =>
             destruct (String.eqb_spec k n) as [-> | _];
             [ try discriminate H; reflexivity | ]
         end.
  reflexivity.
Qed.

Lemma lookup_cases (table : list (string * string)) (key : string) :
  no_upper key = true ->
  (exists v, own table key = Some v /\ get table key = Str v)
  \/ (own table key = None /\ In key ["constructor"; "__proto__"]
      /\ get table key = Inherited key)
  \/ (own table key = None /\ ~ In key ["constructor"; "__proto__"]
      /\ get table key = Undefined).
Proof.
  intros Hkey. unfold get.
  destruct (own table key) as [v |]; [ left; now exists v | right ].
  rewrite (inherited_lowered_key _ Hkey).
  destruct (String.eqb_spec key "constructor") as [E | E1];
    [ left; simpl; auto | ].
  destruct (String.eqb_spec key "__proto__") as [E | E2];
    [ left; simpl; auto | ].
  right. simpl. intuition congruence.
Qed.

(** The entries of a table that a key can have. *)
Ltac own_cases H :=
  cbn [own] in H;
  repeat match type of H with
         | context [String.eqb ?k ?n] =>
             revert H; destruct (String.eqb_spec k n) as [-> | ?];
             intros H; cbv iota in H
         end;
  try discriminate H; try (injection H as <-).

(** X3.  The T category of esophageal and colorectal cancer is looked up by the
    depth in lower case.  A depth that is no key of the table gives 'Tx',
    except 'constructor' and '__proto__' (in any case): for them the lookup
    finds a member that every object inherits, and T is not a string.  The
    stage is then the one of a depth that is not known. *)
Theorem depth_lookup_finds_inherited_members (f : MedicalFeatures) :
  let key := toLowerCase (tumor_depth f) in
  let inherited := In key ["constructor"; "__proto__"] in
  ((exists t, T (stageEsophagealCancer f) = Str t) <-> ~ inherited)
  /\ ((exists t, T (stageColorectalCancer f) = Str t) <-> ~ inherited)
  /\ (~ inherited ->
      ~ In key ["mucosa"; "submucosa"; "muscularis"; "adventitia";
                "adjacent structures"] ->
      T (stageEsophagealCancer f) = Str "Tx")
  /\ (~ inherited ->
      ~ In key ["submucosa"; "muscularis propria"; "subserosa";
                "peritoneum/invasion"] ->
      T (stageColorectalCancer f) = Str "Tx")
  /\ (inherited ->
      forall f',
        tumor_depth f' = EmptyString ->
        lymph_nodes_involved f' = lymph_nodes_involved f ->
        distant_metastasis f' = distant_metastasis f ->
        stage (stageEsophagealCancer f) = stage (stageEsophagealCancer f')
        /\ stage (stageColorectalCancer f) = stage (stageColorectalCancer f')).
Proof.
  intros key inherited. subst inherited key.
  unfold stageEsophagealCancer, stageColorectalCancer. cbn [T stage].
  pose proof (no_upper_toLowerCase (tumor_depth f)) as Hkey. revert Hkey.
  generalize (toLowerCase (tumor_depth f)). intros key Hkey.
  split; [ | split; [ | split; [ | split ] ] ].
  - match goal with
    | |- context [get ?tbl key] =>
        destruct (lookup_cases tbl key Hkey)
          as [(v & Hown & ->) | [(_ & Hin & ->) | (_ & Hout & ->)]]
    end.
    + own_cases Hown; cbn; split;
        try (intros _ [E | [E | []]]; discriminate E);
        intros _; eexists; reflexivity.
    + split; [ intros [t E]; discriminate E | intros H; contradiction ].
    + split; [ intros _; exact Hout | intros _; eexists; reflexivity ].
  - match goal with
    | |- context [get ?tbl key] =>
        destruct (lookup_cases tbl key Hkey)
          as [(v & Hown & ->) | [(_ & Hin & ->) | (_ & Hout & ->)]]
    end.
    + own_cases Hown; cbn; split;
        try (intros _ [E | [E | []]]; discriminate E);
        intros _; eexists; reflexivity.
    + split; [ intros [t E]; discriminate E | intros H; contradiction ].
    + split; [ intros _; exact Hout | intros _; eexists; reflexivity ].
  - intros Hout Hkeys.
    match goal with
    | |- context [get ?tbl key] =>
        destruct (lookup_cases tbl key Hkey)
          as [(v & Hown & ->) | [(_ & Hin & ->) | (_ & _ & ->)]]
    end; [ | contradiction | reflexivity ].
    exfalso. own_cases Hown; apply Hkeys; simpl; tauto.
  - intros Hout Hkeys.
    match goal with
    | |- context [get ?tbl key] =>
        destruct (lookup_cases tbl key Hkey)
          as [(v & Hown & ->) | [(_ & Hin & ->) | (_ & _ & ->)]]
    end; [ | contradiction | reflexivity ].
    exfalso. own_cases Hown; apply Hkeys; simpl; tauto.
  - intros Hin f' Hd Hn Hm. rewrite Hd, Hn, Hm. cbn [toLowerCase].
    assert (Hget : forall tbl,
              own tbl key = None -> get tbl key = Inherited key).
    { intros tbl Hown.
      destruct (lookup_cases tbl key Hkey)
        as [(v & Hv & _) | [(_ & _ & E) | (_ & Hout & _)]];
        [ congruence | exact E | contradiction ]. }
    rewrite !Hget
      by (destruct Hin as [<- | [<- | []]]; reflexivity).
    split; reflexivity.
Qed.

Lemma witness_depth_lookup_finds_inherited_members :
  (stage (stageEsophagealCancer odd_depth)
   = stage (stageEsophagealCancer nothing_found)
   /\ stage (stageColorectalCancer odd_depth)
      = stage (stageColorectalCancer nothing_found))
  /\ T (stageColorectalCancer nothing_found) = Str "Tx".
Proof.
  split.
  - apply (proj2 (proj2 (proj2 (proj2
             (depth_lookup_finds_inherited_members odd_depth)))));
      [ simpl; tauto | reflexivity | reflexivity | reflexivity ].
  - apply (proj1 (proj2 (proj2 (proj2
             (depth_lookup_finds_inherited_members nothing_found)))));
      simpl; intuition discriminate.
Defined.

(** ** [getTreatmentGuidelines] after [determineTNMStage] *)

Lemma stage_in_allStages (cancerType : string) (f : MedicalFeatures) :
  In (stage (determineTNMStage cancerType f)) allStages.
Proof.
  rewrite determineTNMStage_table.
  destruct (stagerOf stagingTable (toLowerCase cancerType))
    as [stager |] eqn:E; [ | simpl; tauto ].
  apply stagerOf_In in E. revert E.
  generalize (toLowerCase cancerType). intros name Hin.
  each_stager Hin; cbn [stage]; stage_cases f; tauto.
Qed.

Lemma metastatic_stage_in_group_IV (cancerType : string) (f : MedicalFeatures) :
  supported cancerType ->
  distant_metastasis f = true ->
  stageGroup (stage (determineTNMStage cancerType f)) = "IV".
Proof.
  intros Hsup Hm. destruct (supported_cases _ Hsup) as (stager & Hin & ->).
  revert Hin. generalize (toLowerCase cancerType). intros name Hin.
  each_stager Hin; cbn [stage]; rewrite Hm; reflexivity.
Qed.

(** X4.  The guideline of a staged cancer.  Whatever [determineTNMStage] returns,
    the stage group that [getTreatmentGuidelines] reads in its stage is 'I',
    'IV' or 'Unknown': the text is the one of group 'I', the one of group
    'IV' or the default text, and the entries of the groups 'II' and 'III'
    are never returned.  A metastatic cancer of a supported type gets the
    text of group 'IV'. *)
Theorem guideline_of_a_staged_cancer
  (cancerType type : string) (f : MedicalFeatures) :
  let staged := stage (determineTNMStage cancerType f) in
  In (stageGroup staged) ["I"; "IV"; "Unknown"]
  /\ (stageGroup staged = "Unknown" <->
      In staged ["Stage Unknown"; "Not available"])
  /\ (In type (map fst treatmentDict) ->
      In (Some (getTreatmentGuidelines type staged))
         [treatmentOf type "I"; treatmentOf type "IV"; Some noTreatment]
      /\ Some (getTreatmentGuidelines type staged) <> treatmentOf type "II"
      /\ Some (getTreatmentGuidelines type staged) <> treatmentOf type "III")
  /\ (In type (map fst treatmentDict) ->
      supported cancerType -> distant_metastasis f = true ->
      Some (getTreatmentGuidelines type staged) = treatmentOf type "IV").
Proof.
  intros staged.
  pose proof (stage_in_allStages cancerType f) as Hstage. fold staged in Hstage.
  split; [ | split; [ | split ] ].
  - revert Hstage. generalize staged. intros s H. simpl in H.
    repeat (destruct H as [<- | H]; [ vm_compute; tauto | ]).
    contradiction.
  - revert Hstage. generalize staged. intros s H. simpl in H.
    repeat (destruct H as [<- | H];
            [ vm_compute; intuition discriminate | ]).
    contradiction.
  - intros Htype. revert Hstage. generalize staged. intros s H.
    simpl in Htype.
    repeat (destruct Htype as [<- | Htype];
            [ simpl in H;
              repeat (destruct H as [<- | H];
                      [ vm_compute; intuition discriminate | ]);
              contradiction | ]).
    contradiction.
  - intros Htype Hsup Hm.
    pose proof (metastatic_stage_in_group_IV cancerType f Hsup Hm) as Hg.
    fold staged in Hg. unfold getTreatmentGuidelines, treatmentOf.
    rewrite Hg. simpl in Htype.
    repeat (destruct Htype as [<- | Htype]; [ reflexivity | ]).
    contradiction.
Qed.

Lemma witness_guideline_of_a_staged_cancer :
  Some (getTreatmentGuidelines "lung"
          (stage (determineTNMStage "Lung" metastatic)))
  = Some "Targeted therapy, immunotherapy, or chemo."
  /\ Some (getTreatmentGuidelines "breast"
             (stage (determineTNMStage "breast" localized)))
     <> treatmentOf "breast" "II".
Proof.
  split.
  - assert (Ht : In "lung" (map fst treatmentDict)) by (simpl; tauto).
    assert (Hs : supported "Lung") by (unfold supported; simpl; tauto).
    exact (proj2 (proj2 (proj2
             (guideline_of_a_staged_cancer "Lung" "lung" metastatic)))
             Ht Hs eq_refl).
  - assert (Ht : In "breast" (map fst treatmentDict)) by (simpl; tauto).
    exact (proj1 (proj2 (proj1 (proj2 (proj2
             (guideline_of_a_staged_cancer "breast" "breast" localized)))
             Ht))).
Defined.

(** X5.  A cancer type that is no key of [treatmentDict] gets the default text
    for every stage: the lookup is by the exact string, so 'Breast' in upper
    case and the types 'oral cavity' and 'oropharynx', which
    [determineTNMStage] supports, have no guideline.  A stage without a
    capital 'I' gets the default text for every type. *)
Theorem guideline_of_a_missing_key (type stage : string) :
  (~ In type (map fst treatmentDict) ->
   getTreatmentGuidelines type stage = noTreatment)
  /\ (includes stage "I" = false ->
      getTreatmentGuidelines type stage = noTreatment)
  /\ (forall cancerType,
        In (toLowerCase cancerType) ["oral cavity"; "oropharynx"] ->
        supported cancerType
        /\ getTreatmentGuidelines cancerType stage = noTreatment
        /\ getTreatmentGuidelines (toLowerCase cancerType) stage = noTreatment).
Proof.
  assert (Hmiss : forall t, ~ In t (map fst treatmentDict) ->
                            getTreatmentGuidelines t stage = noTreatment).
  { intros t H. unfold getTreatmentGuidelines.
    replace (own_dict treatmentDict t) with (@None (list (string * string)));
      [ reflexivity | ].
    unfold treatmentDict. cbn [own_dict].
    repeat match goal with
           | |- context [String.eqb t ?n] =>
               destruct (String.eqb_spec t n) as [-> | _];
               [ exfalso; apply H; simpl; tauto | ]
           end.
    reflexivity. }
  split; [ apply Hmiss | split ].
  - intros HI. unfold getTreatmentGuidelines.
    assert (Hsub : forall w, includes stage (String "I" w) = true ->
                             includes stage "I" = true).
    { intros w. clear. induction stage as [| c s IH]; cbn [includes].
      - destruct w; discriminate.
      - rewrite !orb_true_iff. intros [H | H]; [ left | right; auto ].
        cbn [String.prefix] in *.
        destruct (ascii_dec "I" c); [ | discriminate ].
        destruct s; reflexivity. }
    assert (Hg : stageGroup stage = "Unknown").
    { unfold stageGroup. rewrite HI. cbn [andb].
      destruct (includes stage "II") eqn:E2;
        [ rewrite (Hsub _ E2) in HI; discriminate | ].
      destruct (includes stage "III") eqn:E3;
        [ rewrite (Hsub _ E3) in HI; discriminate | ].
      destruct (includes stage "IV") eqn:E4;
        [ rewrite (Hsub _ E4) in HI; discriminate | ].
      reflexivity. }
    rewrite Hg.
    destruct (own_dict treatmentDict type) as [entries |] eqn:E;
      [ | reflexivity ].
    revert E. unfold treatmentDict. cbn [own_dict].
    repeat match goal with
           | |- context [String.eqb type ?n] =>
               destruct (String.eqb type n); [ intros [= <-]; reflexivity | ]
           end.
    discriminate.
  - intros cancerType Hin.
    split; [ unfold supported; simpl in *; tauto | ].
    split; apply Hmiss; intros H.
    + assert (Hk : In (toLowerCase cancerType) (map fst treatmentDict)).
      { simpl in H. 
        repeat (destruct H as [<- | H]; [ simpl; tauto | ]). contradiction. }
      simpl in Hin, Hk. intuition congruence.
    + simpl in Hin, H. intuition congruence.
Qed.

Lemma witness_guideline_of_a_missing_key :
  getTreatmentGuidelines "Breast" "Stage I" = noTreatment
  /\ getTreatmentGuidelines "lung" "Stage Unknown" = noTreatment
  /\ supported "Oral Cavity"
  /\ getTreatmentGuidelines "oral cavity" "Stage I" = noTreatment.
Proof.
  pose proof (guideline_of_a_missing_key "Breast" "Stage I") as (H1 & _ & _).
  pose proof (guideline_of_a_missing_key "lung" "Stage Unknown")
    as (_ & H2 & _).
  pose proof (guideline_of_a_missing_key "lung" "Stage I") as (_ & _ & H3).
  split; [ apply H1; simpl; intuition discriminate | ].
  split; [ apply H2; reflexivity | ].
  assert (Hin : In (toLowerCase "Oral Cavity") ["oral cavity"; "oropharynx"])
    by (simpl; tauto).
  destruct (H3 "Oral Cavity" Hin) as (Hs & _ & Hg).
  split; [ exact Hs | exact Hg ].
Defined.

(** ** The extractors: the values they can return *)

Lemma Qred_pos (q : Q) : (0 < Qred q)%Q <-> (0 < q)%Q.
Proof.
  now rewrite Qred_correct.
Qed.

Lemma Qred_nonneg (q : Q) : (0 <= Qred q)%Q <-> (0 <= q)%Q.
Proof.
  now rewrite Qred_correct.
Qed.

Lemma split_char_length (sep : ascii) (s : string) :
  (1 <= List.length (split_char sep s))%nat.
Proof.
  induction s as [| c s IH]; cbn [split_char]; [ simpl; lia | ].
  destruct (split_char sep s) as [| w ws]; [ simpl; lia | ].
  destruct (Ascii.eqb c sep); simpl; lia.
Qed.

(** The score of the keywords of one cancer type: it is positive exactly
    when one of them occurs. *)
Lemma keywordScore_positive (t : string) (keywords : list string) :
  exists q,
    keywordScore t keywords = Finite q /\ (0 <= q)%Q
    /\ ((0 < q)%Q <->
        existsb (fun keyword => includes t (toLowerCase keyword)) keywords
        = true).
Proof.
  unfold keywordScore.
  assert (H : forall kws acc,
            (0 <= acc)%Q ->
            exists q,
              fold_left
                (fun score keyword =>
                   if includes t (toLowerCase keyword)
                   then add score
                          (mul (int (Z.of_nat
                                       (List.length (split_char " " keyword))))
                               (fin 0.3%Q))
                   else score) kws (Finite acc) = Finite q
              /\ (0 <= q)%Q
              /\ ((0 < q)%Q <->
                  (0 < acc)%Q
                  \/ existsb (fun keyword => includes t (toLowerCase keyword))
                       kws = true)).
  { induction kws as [| kw kws IH]; intros acc Hacc.
    - exists acc. cbn. intuition discriminate.
    - cbn [fold_left existsb].
      destruct (includes t (toLowerCase kw)).
      + pose proof (split_char_length " " kw) as Hlen.
        set (n := List.length (split_char " " kw)) in *.
        assert (Hw : (0 < inject_Z (Z.of_nat n) * Qred 0.3)%Q).
        { apply Qmult_lt_0_compat; [ | reflexivity ].
          change 0%Q with (inject_Z 0). rewrite <- Zlt_Qlt. lia. }
        cbn [add mul int fin].
        assert (Hsum : (0 < acc + Qred (inject_Z (Z.of_nat n) * Qred 0.3))%Q).
        { apply Qred_pos in Hw.
          apply Qlt_le_trans with (y := (0 + Qred (inject_Z (Z.of_nat n) * Qred 0.3))%Q).
          - now rewrite Qplus_0_l.
          - apply Qplus_le_l. exact Hacc. }
        destruct (IH (Qred (acc + Qred (inject_Z (Z.of_nat n) * Qred 0.3))))
          as (q & Hq & Hpos & Hiff).
        { apply Qred_nonneg. now apply Qlt_le_weak. }
        exists q. split; [ exact Hq | split; [ exact Hpos | ] ].
        rewrite Hiff, Qred_pos. cbn [orb]. intuition.
      + destruct (IH acc Hacc) as (q & Hq & Hpos & Hiff).
        exists q. split; [ exact Hq | split; [ exact Hpos | ] ].
        rewrite Hiff. cbn [orb]. reflexivity. }
  destruct (H keywords 0%Q) as (q & Hq & Hpos & Hiff); [ apply Qle_refl | ].
  exists q. split; [ exact Hq | split; [ exact Hpos | ] ].
  rewrite Hiff. split; [ intros [H0 | H1]; auto | auto ].
  exfalso. revert H0. apply Qlt_irrefl.
Qed.

(** The loop over the cancer types keeps the best score and its type. *)
Lemma best_type_fold (t : string) :
  forall (table : list (string * list string)) (bestMatch : string) (q : Q),
    (0 <= q)%Q ->
    (bestMatch = "" <-> (q == 0)%Q) ->
    Forall (fun entry => fst entry <> "") table ->
    exists bestMatch' q',
      fold_left
        (fun '(bestMatch, bestScore) '(cancerType, keywords) =>
           let score := keywordScore t keywords in
           if (score >? bestScore)%js then (cancerType, score)
           else (bestMatch, bestScore))
        table (bestMatch, Finite q) = (bestMatch', Finite q')
      /\ (0 <= q')%Q
      /\ (bestMatch' = "" <-> (q' == 0)%Q)
      /\ In bestMatch' (bestMatch :: map fst table)
      /\ ((q' == 0)%Q <->
          (q == 0)%Q
          /\ existsb (fun entry : string * list string =>
                        existsb (fun keyword =>
                                   includes t (toLowerCase keyword))
                                (snd entry)) table = false).
Proof.
  induction table as [| [cancerType keywords] table IH];
    intros bestMatch q Hq Hbest Hkeys.
  - exists bestMatch, q. cbn. intuition.
  - cbn [fold_left existsb snd map fst].
    inversion Hkeys as [| ? ? Hkey Hkeys']; subst.
    destruct (keywordScore_positive t keywords) as (s & -> & Hs & Hpos).
    cbn [gt lt].
    destruct (Qle_bool s q) eqn:Hle; cbn [negb].
    + destruct (IH bestMatch q Hq Hbest Hkeys')
        as (b' & q' & Hfold & Hq' & Hb' & Hin & Hzero).
      exists b', q'. split; [ exact Hfold | split; [ exact Hq' | ] ].
      split; [ exact Hb' | ].
      split; [ simpl in Hin |- *; tauto | ].
      rewrite Hzero. apply Qle_bool_iff in Hle.
      split.
      * intros [H0 Hnone]. split; [ exact H0 | ].
        rewrite Hnone, orb_false_r.
        destruct (existsb _ keywords); [ | reflexivity ].
        exfalso. assert (Hlt : (0 < s)%Q) by now apply Hpos.
        rewrite H0 in Hle. apply (Qlt_irrefl 0).
        now apply Qlt_le_trans with (y := s).
      * intros [H0 Hnone]. apply orb_false_iff in Hnone. tauto.
    + assert (Hlt : (q < s)%Q).
      { apply Qnot_le_lt. intros H. apply Qle_bool_iff in H. congruence. }
      assert (Hs0 : (0 < s)%Q) by now apply Qle_lt_trans with (y := q).
      destruct (IH cancerType s Hs) as (b' & q' & Hfold & Hq' & Hb' & Hin & Hzero);
        [ | exact Hkeys' | ].
      { cbn [fst] in Hkey. split; [ tauto | ].
        intros H0. rewrite H0 in Hs0. now apply Qlt_irrefl in Hs0. }
      exists b', q'. split; [ exact Hfold | split; [ exact Hq' | ] ].
      split; [ exact Hb' | ].
      split; [ simpl in Hin |- *; tauto | ].
      rewrite Hzero. split.
      * intros [H0 _]. rewrite H0 in Hs0. now apply Qlt_irrefl in Hs0.
      * intros [_ Hnone]. apply orb_false_iff in Hnone.
        destruct Hnone as [Hnone _]. apply Hpos in Hs0. congruence.
Qed.

(** The type that [extractCancerType] answers, and when it is empty. *)
Lemma extractCancerType_listed (text : string) :
  In (Utils.type (extractCancerType text)) ("" :: map fst cancerKeywords)
  /\ (Utils.type (extractCancerType text) = "" <->
      mentions_a_cancer (toLowerCase text) = false).
Proof.
  unfold extractCancerType, mentions_a_cancer.
  destruct (best_type_fold (toLowerCase text) cancerKeywords "" 0%Q)
    as (b & q & Hfold & Hq & Hb & Hin & Hzero).
  { apply Qle_refl. }
  { split; reflexivity. }
  { unfold cancerKeywords. repeat constructor; discriminate. }
  change (int 0) with (Finite 0%Q).
  cbv zeta in Hfold |- *.
  rewrite Hfold. cbn [type].
  split; [ exact Hin | ].
  rewrite Hb, Hzero. split; [ tauto | ].
  intros H. split; [ reflexivity | exact H ].
Qed.

(** The confidence of [extractCancerType]. *)
Lemma extractCancerType_confidence (text : string) :
  let r := extractCancerType text in
  (Utils.type r = "" <-> (type_confidence r === int 0)%js = true)
  /\ in_unit_interval (type_confidence r).
Proof.
  unfold extractCancerType, mentions_a_cancer.
  destruct (best_type_fold (toLowerCase text) cancerKeywords "" 0%Q)
    as (b & q & Hfold & Hq & Hb & Hin & Hzero).
  { apply Qle_refl. }
  { split; reflexivity. }
  { unfold cancerKeywords. repeat constructor; discriminate. }
  change (int 0) with (Finite 0%Q).
  cbv zeta in Hfold |- *.
  rewrite Hfold. cbn [type type_confidence].
  assert (Hdiv : div (Finite q) (fin 3.0%Q) = Finite (Qred (q / Qred 3.0)))
    by reflexivity.
  rewrite Hdiv.
  assert (Hthird : (Qred (q / Qred 3.0) == q / 3)%Q).
  { rewrite Qred_correct. reflexivity. }
  assert (Hnonneg : (0 <= Qred (q / Qred 3.0))%Q).
  { rewrite Hthird. apply Qle_shift_div_l; [ reflexivity | ].
    now rewrite Qmult_0_l. }
  cbn [min2 fin le].
  destruct (Qle_bool (Qred (q / Qred 3.0)) (Qred 1.0)) eqn:Hle.
  - split.
    + rewrite Hb. cbn [strict_eq int]. rewrite Qeq_bool_iff, Hthird.
      split.
      * intros ->. reflexivity.
      * intros H. apply (Qmult_inj_r _ _ (/ 3)%Q); [ discriminate | ].
        rewrite Qmult_0_l. exact H.
    + split; cbn [le int].
      * now apply Qle_bool_iff.
      * exact Hle.
  - split.
    + rewrite Hb. cbn [strict_eq int].
      split; [ | discriminate ].
      intros H0. exfalso.
      assert (Hc : Qle_bool (Qred (q / Qred 3.0)) (Qred 1.0) = true).
      { apply Qle_bool_iff. rewrite Hthird, H0. discriminate. }
      congruence.
    + split; reflexivity.
Qed.

(** X6.  [extractCancerType] answers one of the six keys of its keyword table,
    or the empty string; it answers the empty string exactly when no keyword
    of the table occurs in the lowered text, and exactly then is the
    confidence 0; the confidence always lies between 0 and 1. *)
Theorem extractCancerType_names_a_listed_type (text : string) :
  let r := extractCancerType text in
  In (type r) ("" :: map fst cancerKeywords)
  /\ (type r = "" <-> mentions_a_cancer (toLowerCase text) = false)
  /\ (type r = "" <-> (type_confidence r === int 0)%js = true)
  /\ in_unit_interval (type_confidence r).
Proof.
  destruct (extractCancerType_listed text) as [Hin Hnone].
  destruct (extractCancerType_confidence text) as [Hzero Hconf].
  cbv zeta. auto.
Qed.

(** *** Numbers read from the captures *)








(** *** What the digits of the patterns match *)

Lemma run_digits_star (i : bool) (k : continuation) :
  forall fuel s caps res,
    iterate (fun s0 c0 k0 => run i (Set_ Digit) s0 (reset (groups_of (Set_ Digit)) c0) k0)
      true k fuel s caps = Some res ->
    exists ds s1,
      s = ds ++ s1 /\ all_digits ds = true /\ k s1 caps = Some res.
Proof.
  induction fuel as [| fuel IH]; intros s caps res H; [ discriminate | ].
  cbn [iterate] in H.
  apply or_try_Some in H as [H | [_ H]].
  - cbn [run groups_of reset map app mem] in H.
    destruct s as [| c s]; [ discriminate | ].
    destruct (is_digit c) eqn:Hc; [ | discriminate ].
    destruct (String.length s <? String.length (String c s))%nat;
      [ | discriminate ].
    apply IH in H as (ds & s1 & -> & Hds & Hk).
    exists (String c ds), s1. cbn [all_digits append]. now rewrite Hc, Hds.
  - exists "", s. auto.
Qed.

(** [\d+] matches a digit and then digits. *)
Lemma run_digits_plus (i : bool) (s : string) (caps : captures)
  (k : continuation) (res : state) :
  run i (Plus (Set_ Digit)) s caps k = Some res ->
  exists c ds s1,
    s = String c ds ++ s1 /\ all_digits (String c ds) = true
    /\ k s1 caps = Some res.
Proof.
  unfold Plus. cbn [run mem]. intros H.
  destruct s as [| c s]; [ discriminate | ].
  destruct (is_digit c) eqn:Hc; [ | discriminate ].
  apply (run_digits_star i) in H as (ds & s1 & -> & Hds & Hk).
  exists c, ds, s1. cbn [all_digits]. now rewrite Hc, Hds.
Qed.






(** *** The counts of lymph nodes *)

(** Group 1 of a match of [nodePattern] holds digits, or is [undefined]. *)
Lemma nodePattern_num (s rest : string) (caps : captures) :
  run true nodePattern s [] (fun rest caps => Some (rest, caps))
  = Some (rest, caps) ->
  (exists c num,
     capture caps 1 = Some (String c num)
     /\ all_digits (String c num) = true)
  \/ capture caps 1 = None.
Proof.
  unfold nodePattern. cbn [Seqs Alts].
  match goal with
  | |- run _ (Seq _ ?r) _ _ _ = _ -> _ => remember r as tail eqn:Etail
  end.
  intros H.
  change (or_try
            (run true (Plus (Set_ Digit)) s []
               (fun s1 c1 => run true tail s1 ((1, Some (consumed s s1)) :: c1)
                               (fun rest caps => Some (rest, caps))))
            (fun _ =>
               or_try
                 (run true (Lit "multiple") s []
                    (fun s1 c1 => run true tail s1 c1
                                    (fun rest caps => Some (rest, caps))))
                 (fun _ =>
                    or_try
                      (run true (Lit "several") s []
                         (fun s1 c1 => run true tail s1 c1
                                         (fun rest caps => Some (rest, caps))))
                      (fun _ =>
                         run true (Lit "numerous") s []
                           (fun s1 c1 => run true tail s1 c1
                                           (fun rest caps => Some (rest, caps))))))
          = Some (rest, caps)) in H.
  assert (Htail : forall n, ~ In n (groups_of tail)).
  { subst tail. cbn. tauto. }
  assert (Hword : forall word,
            all_lower word = true ->
            run true (Lit word) s []
              (fun s1 c1 => run true tail s1 c1
                              (fun rest caps => Some (rest, caps)))
            = Some (rest, caps) ->
            capture caps 1 = None).
  { intros word Hw Hr.
    apply (run_Lit_ignoreCase _ Hw) in Hr as (before & r1 & -> & Hlow & Hr).
    apply run_continues in Hr as (s' & c' & [= <- <-] & _ & Hcap).
    now rewrite Hcap by apply Htail. }
  apply or_try_Some in H as [H | [_ H]].
  - left.
    apply run_digits_plus in H as (c & ds & s1 & -> & Hds & H).
    rewrite consumed_append in H.
    apply run_continues in H as (s2 & c2 & [= <- <-] & _ & Hcap).
    exists c, ds. rewrite Hcap by apply Htail. auto.
  - right.
    apply or_try_Some in H as [H | [_ H]]; [ now apply (Hword "multiple") | ].
    apply or_try_Some in H as [H | [_ H]]; [ now apply (Hword "several") | ].
    now apply (Hword "numerous").
Qed.






(** ** Substrings *)




(** ** From the text to the stage *)



(** The stager of each key of the keyword table. *)
Lemma determineTNMStage_keys (f : MedicalFeatures) :
  determineTNMStage "gallbladder" f = stageGallbladderCancer f
  /\ determineTNMStage "esophageal" f = stageEsophagealCancer f
  /\ determineTNMStage "breast" f = stageBreastCancer f
  /\ determineTNMStage "lung" f = stageLungCancer f
  /\ determineTNMStage "colorectal" f = stageColorectalCancer f
  /\ determineTNMStage "head and neck" f = stageHeadNeckCancer f.
Proof.
  repeat split; reflexivity.
Qed.




(** ** Metastasis and its negation *)






(** ** Findings that the text does not state *)



(** ** The document processor *)

Lemma trimEnd_idempotent (s : string) : trimEnd (trimEnd s) = trimEnd s.
Proof.
  induction s as [| c s IH]; [ reflexivity | ].
  cbn [trimEnd].
  destruct (trimEnd s) as [| d r] eqn:E.
  - destruct (is_space c) eqn:Hc; [ reflexivity | ].
    cbn [trimEnd]. now rewrite Hc.
  - cbn [trimEnd]. cbn [trimEnd] in IH. now rewrite IH.
Qed.

Lemma trimStart_head (s : string) :
  trimStart s = ""
  \/ exists c r, trimStart s = String c r /\ is_space c = false.
Proof.
  induction s as [| c s IH]; [ now left | ].
  cbn [trimStart]. destruct (is_space c) eqn:Hc; [ exact IH | ].
  right. now exists c, s.
Qed.

Lemma trimStart_trimEnd (c : ascii) (r : string) :
  is_space c = false ->
  trimStart (trimEnd (String c r)) = trimEnd (String c r).
Proof.
  intros Hc. cbn [trimEnd].
  destruct (trimEnd r); rewrite ?Hc; cbn [trimStart]; now rewrite Hc.
Qed.

(** [s.trim().trim()] is [s.trim()]. *)
Lemma trim_idempotent (s : string) : trim (trim s) = trim s.
Proof.
  unfold trim.
  destruct (trimStart_head s) as [-> | (c & r & -> & Hc)]; [ reflexivity | ].
  rewrite (trimStart_trimEnd c r Hc). apply trimEnd_idempotent.
Qed.

Lemma readPages_state (pdf : PDFDocument) (p : Processor) :
  forall pages text, snd (readPages pdf pages text p) = p.
Proof.
  induction pages as [| i pages IH]; intros text; [ reflexivity | ].
  cbn [readPages]. unfold bind, call.
  destruct (getPage pdf i) as [page | e]; [ | reflexivity ].
  destruct (getTextContent page) as [items | e]; [ | reflexivity ].
  apply IH.
Qed.

(** What [processImageBlob] returns, throws and leaves. *)
Lemma processImageBlob_cases (lib : Libraries) (b : Blob) (p : Processor) :
  kept_or_created lib p (snd (processImageBlob lib b p))
  /\ match fst (processImageBlob lib b p) with
     | Returns (t, c) =>
         exists w raw c0,
           tesseractWorker (snd (processImageBlob lib b p)) = Some w
           /\ recognize lib w b = Returns (raw, c0)
           /\ t = trim raw /\ c = div c0 (int 100)
     | Throws e => exists m, e = Error ("OCR processing failed: " ++ m)
     end.
Proof.
  unfold processImageBlob, try_catch, bind, initializeTesseract,
    worker_recognize, ret, throw, kept_or_created.
  destruct p as [[w |]]; cbn [tesseractWorker].
  - destruct (recognize lib w b) as [[raw c0] | e] eqn:E; cbn [fst snd].
    + split; [ now left | ]. exists w, raw, c0. cbn. auto.
    + split; [ now left | ]. now exists (message_of e).
  - destruct (createWorker lib) as [w | e] eqn:Ew; cbn [tesseractWorker].
    + destruct (recognize lib w b) as [[raw c0] | e] eqn:E; cbn [fst snd].
      * split; [ right; split; [ reflexivity | now exists w ] | ].
        exists w, raw, c0. cbn. auto.
      * split; [ right; split; [ reflexivity | now exists w ] | ].
        now exists (message_of e).
    + cbn [fst snd]. split; [ now left | ]. now exists (message_of e).
Qed.

(** What [processPDF] returns, throws and leaves. *)
Lemma processPDF_cases (lib : Libraries) (file : File) (p : Processor) :
  kept_or_created lib p (snd (processPDF lib file p))
  /\ match fst (processPDF lib file p) with
     | Returns r =>
         trim (pdf_text r) = pdf_text r
         /\ ((pdf_method r = "standard_extraction"
              /\ (100 < String.length (pdf_text r))%nat
              /\ snd (processPDF lib file p) = p)
             \/ (pdf_method r = "pdf_ocr"
                 /\ exists w,
                      tesseractWorker (snd (processPDF lib file p)) = Some w))
     | Throws e => exists m, e = Error ("PDF processing failed: " ++ m)
     end.
Proof.
  unfold processPDF, try_catch, bind, call, throw, ret.
  assert (Hkept : kept_or_created lib p p) by now left.
  destruct (arrayBuffer lib file) as [buffer | e]; cbn [fst snd];
    [ | split; [ exact Hkept | now exists (message_of e) ] ].
  destruct (getDocument lib buffer) as [pdf | e]; cbn [fst snd];
    [ | split; [ exact Hkept | now exists (message_of e) ] ].
  pose proof (readPages_state pdf p (List.seq 1 (numPages pdf)) "") as Hp.
  destruct (readPages pdf (List.seq 1 (numPages pdf)) "" p) as [[text | e] p1];
    cbn [snd] in Hp; subst p1; cbn [fst snd];
    [ | split; [ exact Hkept | now exists (message_of e) ] ].
  destruct (100 <? String.length (trim text))%nat eqn:Hlen; cbn [fst snd].
  { split; [ exact Hkept | ]. cbn [pdf_text pdf_method].
    split; [ apply trim_idempotent | left ].
    apply Nat.ltb_lt in Hlen. auto. }
  destruct (getPage pdf 1) as [page | e]; cbn [fst snd];
    [ | split; [ exact Hkept | now exists (message_of e) ] ].
  destruct (render page) as [png | e]; cbn [fst snd];
    [ | split; [ exact Hkept | now exists (message_of e) ] ].
  pose proof (processImageBlob_cases lib png p) as [Hw Hres].
  destruct (processImageBlob lib png p) as [[[t c] | e] p2];
    cbn [fst snd] in Hw, Hres |- *.
  - split; [ exact Hw | ]. cbn [pdf_text pdf_method].
    destruct Hres as (w & raw & c0 & Hworker & _ & -> & _).
    split; [ apply trim_idempotent | right ].
    split; [ reflexivity | now exists w ].
  - split; [ exact Hw | now exists (message_of e) ].
Qed.

(** What [processDOCX] returns, throws and leaves. *)
Lemma processDOCX_cases (lib : Libraries) (file : File) (p : Processor) :
  snd (processDOCX lib file p) = p
  /\ match fst (processDOCX lib file p) with
     | Returns value =>
         trim value <> ""
         /\ exists buffer,
              arrayBuffer lib file = Returns buffer
              /\ extractRawText lib buffer = Returns value
     | Throws e => exists m, e = Error ("DOCX processing failed: " ++ m)
     end.
Proof.
  unfold processDOCX, try_catch, bind, call, throw, ret.
  destruct (arrayBuffer lib file) as [buffer | e]; cbn [fst snd];
    [ | split; [ reflexivity | now exists (message_of e) ] ].
  destruct (extractRawText lib buffer) as [value | e] eqn:E; cbn [fst snd];
    [ | split; [ reflexivity | now exists (message_of e) ] ].
  destruct (String.eqb_spec (trim value) "") as [Hblank | Htext];
    cbn [fst snd]; split; try reflexivity.
  - now eexists.
  - split; [ exact Htext | now exists buffer ].
Qed.

(** What the branches of [processDocument] return, throw and leave. *)
Lemma processByType_cases (lib : Libraries) (file : File) (p : Processor) :
  kept_or_created lib p (snd (processByType lib file p))
  /\ match fst (processByType lib file p) with
     | Returns (text, confidence, method, pages) =>
         (DocumentProcessor.type file = docx_type
          /\ method = "docx_extraction" /\ trim text <> ""
          /\ snd (processByType lib file p) = p
          /\ exists buffer,
               arrayBuffer lib file = Returns buffer
               /\ extractRawText lib buffer = Returns text)
         \/ (DocumentProcessor.type file = "application/pdf"
             /\ method = "standard_extraction" /\ trim text = text
             /\ (100 < String.length text)%nat
             /\ snd (processByType lib file p) = p)
         \/ (DocumentProcessor.type file <> docx_type
             /\ In method ocrMethods /\ trim text = text
             /\ exists w,
                  tesseractWorker (snd (processByType lib file p)) = Some w)
     | Throws e =>
         exists m,
           e = Error m
           /\ (accepted (DocumentProcessor.type file) = false /\ m = "Unsupported file type"
               \/ DocumentProcessor.type file = "application/pdf"
                  /\ String.prefix "PDF processing failed: " m = true
               \/ DocumentProcessor.type file = docx_type
                  /\ String.prefix "DOCX processing failed: " m = true
               \/ startsWith (DocumentProcessor.type file) "image/" = true
                  /\ String.prefix "OCR processing failed: " m = true)
     end.
Proof.
  unfold processByType, bind, ret, throw.
  destruct (String.eqb_spec (DocumentProcessor.type file) "application/pdf") as [Hpdf | Hpdf].
  { pose proof (processPDF_cases lib file p) as [Hw Hres].
    destruct (processPDF lib file p) as [[r | e] p1];
      cbn [fst snd] in Hw, Hres |- *; (split; [ exact Hw | ]).
    - destruct Hres as [Htrim [(Hm & Hlen & ->) | (Hm & w & Hworker)]].
      + right; left. auto.
      + right; right. rewrite Hm.
        split; [ rewrite Hpdf; discriminate | ].
        split; [ simpl; tauto | ]. split; [ exact Htrim | now exists w ].
    - destruct Hres as [m ->]. eexists. split; [ reflexivity | ].
      right; left. split; [ exact Hpdf | apply prefix_append ]. }
  destruct (String.eqb_spec (DocumentProcessor.type file) docx_type) as [Hdocx | Hdocx].
  { pose proof (processDOCX_cases lib file p) as [Hp Hres].
    destruct (processDOCX lib file p) as [[value | e] p1];
      cbn [fst snd] in Hp, Hres |- *; subst p1;
      (split; [ now left | ]).
    - destruct Hres as (Htext & buffer & Hb & Hv).
      left. repeat split; auto. now exists buffer.
    - destruct Hres as [m ->]. eexists. split; [ reflexivity | ].
      right; right; left. split; [ exact Hdocx | apply prefix_append ]. }
  destruct (startsWith (DocumentProcessor.type file) "image/") eqn:Himage.
  { unfold processImage.
    pose proof (processImageBlob_cases lib (blob file) p) as [Hw Hres].
    destruct (processImageBlob lib (blob file) p) as [[[t c] | e] p1];
      cbn [fst snd] in Hw, Hres |- *; (split; [ exact Hw | ]).
    - destruct Hres as (w & raw & c0 & Hworker & _ & -> & _).
      right; right. split; [ exact Hdocx | ].
      split; [ simpl; tauto | ].
      split; [ apply trim_idempotent | now exists w ].
    - destruct Hres as [m ->]. eexists. split; [ reflexivity | ].
      right; right; right. split; [ reflexivity | apply prefix_append ]. }
  cbn [fst snd]. split; [ now left | ].
  eexists. split; [ reflexivity | ]. left. split; [ | reflexivity ].
  unfold accepted.
  apply String.eqb_neq in Hpdf, Hdocx. now rewrite Hpdf, Hdocx, Himage.
Qed.

(** X13.  What a result of [processDocument] says about the way the text was
    read.  The text of a DOCX file is the raw text of the library, returned
    only when it is not blank; the text of a PDF file or of an image is
    trimmed, and longer than 100 characters when it comes from the text
    layer; reading by OCR leaves a worker in the processor. *)
Theorem a_result_tells_how_the_text_was_read
  (lib : Libraries) (file : File) (p p' : Processor) (result : OCRResult) :
  processDocument lib file p = (Returns result, p') ->
  (DocumentProcessor.type file = docx_type
   /\ method result = "docx_extraction"
   /\ trim (text result) <> ""
   /\ p' = p
   /\ exists buffer,
        arrayBuffer lib file = Returns buffer
        /\ extractRawText lib buffer = Returns (text result))
  \/ (DocumentProcessor.type file = "application/pdf"
      /\ method result = "standard_extraction"
      /\ trim (text result) = text result
      /\ (100 < String.length (text result))%nat
      /\ p' = p)
  \/ (DocumentProcessor.type file <> docx_type
      /\ In (method result) ocrMethods
      /\ trim (text result) = text result
      /\ exists w, tesseractWorker p' = Some w).
Proof.
  rewrite processDocument_outcome.
  pose proof (processByType_cases lib file p) as [_ Hres].
  destruct (processByType lib file p)
    as [[[[[text0 confidence0] method0] pages] | e] p1];
    [ | discriminate ].
  cbn [fst snd] in Hres. intros [= <- <-]. cbn [text method]. exact Hres.
Qed.

Lemma witness_a_result_tells_how_the_text_was_read :
  exists result p',
    processDocument library scannedPdf newProcessor = (Returns result, p')
    /\ In (method result) ocrMethods
    /\ p' = {| tesseractWorker := Some 7 |}.
Proof.
  eexists _, _. split; [ reflexivity | ].
  destruct (a_result_tells_how_the_text_was_read
              library scannedPdf newProcessor _ _ eq_refl)
    as [(H & _) | [(_ & H & _) | (_ & H & _)]].
  - discriminate H.
  - discriminate H.
  - split; [ exact H | reflexivity ].
Defined.

(** X14.  An error of [processDocument] names the steps that failed.  Whatever
    is thrown is an [Error] whose message starts with 'Document processing
    failed: ' and goes on with the message of the upload kind: 'Unsupported
    file type', or the prefix of [processPDF], [processDOCX] or
    [processImageBlob]. *)
Theorem an_error_names_the_steps_that_failed
  (lib : Libraries) (file : File) (p p' : Processor) (e : thrown) :
  processDocument lib file p = (Throws e, p') ->
  exists m,
    e = Error ("Document processing failed: " ++ m)
    /\ (accepted (DocumentProcessor.type file) = false
        /\ m = "Unsupported file type"
        \/ DocumentProcessor.type file = "application/pdf"
           /\ String.prefix "PDF processing failed: " m = true
        \/ DocumentProcessor.type file = docx_type
           /\ String.prefix "DOCX processing failed: " m = true
        \/ startsWith (DocumentProcessor.type file) "image/" = true
           /\ String.prefix "OCR processing failed: " m = true).
Proof.
  rewrite processDocument_outcome.
  pose proof (processByType_cases lib file p) as [_ Hres].
  destruct (processByType lib file p)
    as [[[[[text0 confidence0] method0] pages] | e0] p1];
    [ discriminate | ].
  cbn [fst snd] in Hres. intros [= <- <-].
  destruct Hres as (m & -> & Hm). now exists m.
Qed.

Lemma witness_an_error_names_the_steps_that_failed :
  exists m,
    fst (processDocument library notes newProcessor)
    = Throws (Error ("Document processing failed: " ++ m)).
Proof.
  destruct (an_error_names_the_steps_that_failed
              library notes newProcessor _ _ eq_refl) as (m & H & _).
  exists m. injection H as <-. reflexivity.
Defined.

(** X15.  The worker of the processor is created once and kept.  A call of
    [processDocument], whether it returns or throws, leaves the processor as
    it was or with the worker that [createWorker] returned when it had none;
    a processor that has a worker keeps it, and a DOCX file or a file of
    another kind than the three never touches the processor. *)
Theorem the_worker_is_created_once_and_kept
  (lib : Libraries) (file : File) (p : Processor) :
  let p' := snd (processDocument lib file p) in
  kept_or_created lib p p'
  /\ (forall w, tesseractWorker p = Some w -> p' = p)
  /\ (DocumentProcessor.type file = docx_type -> p' = p)
  /\ (accepted (DocumentProcessor.type file) = false -> p' = p)
  /\ (forall error, createWorker lib = Throws error -> p' = p).
Proof.
  assert (Hsnd : snd (processDocument lib file p)
                 = snd (processByType lib file p)).
  { rewrite processDocument_outcome.
    destruct (processByType lib file p)
      as [[[[[text0 confidence0] method0] pages] | e0] p1]; reflexivity. }
  cbv zeta. rewrite Hsnd.
  pose proof (processByType_cases lib file p) as [Hw _].
  split; [ exact Hw | ].
  split; [ | split; [ | split ] ].
  - intros w Hsome. destruct Hw as [-> | (Hnone & _)]; congruence.
  - intros Hdocx. unfold processByType, bind. rewrite Hdocx.
    change (docx_type =? "application/pdf") with false.
    rewrite String.eqb_refl.
    pose proof (processDOCX_cases lib file p) as [Hp _].
    destruct (processDOCX lib file p) as [[value | e] p1]; exact Hp.
  - intros Hno. now rewrite (processByType_accepted _ _ _ Hno).
  - intros error Herr. destruct Hw as [-> | (_ & w & Hc & _)]; congruence.
Qed.

Lemma witness_the_worker_is_created_once_and_kept :
  snd (processDocument library scannedPdf {| tesseractWorker := Some 3 |})
  = {| tesseractWorker := Some 3 |}.
Proof.
  apply (proj1 (proj2 (the_worker_is_created_once_and_kept
                         library scannedPdf {| tesseractWorker := Some 3 |}))
           3).
  reflexivity.
Defined.

(** ** The page *)





(** ** Ending the worker *)

(** X18.  [cleanup] ends the worker that processing left.  When [terminate]
    returns, [cleanup] leaves a processor without worker, on which a second
    [cleanup] does nothing; when [terminate] throws, [cleanup] throws the
    same value and the worker stays.  So after [processDocument] on a
    processor without worker, a [cleanup] whose [terminate] returns gives
    the processor back as it was. *)
Theorem cleanup_ends_the_worker
  (terminate : Worker -> outcome unit) (p : Processor) :
  (forall p',
     Cleanup.cleanup terminate p = (Returns tt, p') ->
     tesseractWorker p' = None
     /\ Cleanup.cleanup terminate p' = (Returns tt, p'))
  /\ (forall e p',
        Cleanup.cleanup terminate p = (Throws e, p') ->
        p' = p /\ exists w, tesseractWorker p = Some w /\ terminate w = Throws e)
  /\ ((forall w, terminate w = Returns tt) ->
      tesseractWorker p = None ->
      forall lib file,
        Cleanup.cleanup terminate (snd (processDocument lib file p))
        = (Returns tt, p)).
Proof.
  split; [ | split ].
  - unfold Cleanup.cleanup. destruct p as [[w |]]; cbn [tesseractWorker].
    + destruct (terminate w) as [[] | e]; intros p' [= <-]; auto.
    + intros p' [= <-]. auto.
  - unfold Cleanup.cleanup. destruct p as [[w |]]; cbn [tesseractWorker].
    + destruct (terminate w) as [[] | e0] eqn:E; intros e p' [= <- <-].
      split; [ reflexivity | now exists w ].
    + discriminate.
  - intros Hterm Hnone lib file.
    assert (Hsnd : snd (processDocument lib file p)
                   = snd (processByType lib file p)).
    { rewrite processDocument_outcome.
      destruct (processByType lib file p)
        as [[[[[text0 confidence0] method0] pages] | e0] p1]; reflexivity. }
    rewrite Hsnd.
    pose proof (processByType_cases lib file p) as [Hw _].
    destruct p as [[w |]]; [ discriminate | ].
    destruct Hw as [-> | (_ & w & _ & ->)]; unfold Cleanup.cleanup;
      cbn [tesseractWorker]; [ reflexivity | ].
    now rewrite Hterm.
Qed.

Lemma witness_cleanup_ends_the_worker :
  Cleanup.cleanup (fun _ => Returns tt)
    (snd (processDocument library scannedPdf newProcessor))
  = (Returns tt, newProcessor).
Proof.
  apply (proj2 (proj2 (cleanup_ends_the_worker (fun _ => Returns tt)
                         newProcessor))).
  - reflexivity.
  - reflexivity.
Defined.

(** ** Letter case *)

Lemma is_digit_lower (c : ascii) : is_digit (lower_char c) = is_digit c.
Proof.
  destruct c as [[] [] [] [] [] [] [] []]; reflexivity.
Qed.

Lemma is_space_lower (c : ascii) : is_space (lower_char c) = is_space c.
Proof.
  destruct c as [[] [] [] [] [] [] [] []]; reflexivity.
Qed.

Lemma is_word_lower (c : ascii) : is_word (lower_char c) = is_word c.
Proof.
  destruct c as [[] [] [] [] [] [] [] []]; reflexivity.
Qed.

Lemma upper_lower_char (c : ascii) :
  upper_char (lower_char c) = upper_char c.
Proof.
  destruct c as [[] [] [] [] [] [] [] []]; reflexivity.
Qed.

Lemma lower_lower_char (c : ascii) : lower_char (lower_char c) = lower_char c.
Proof.
  destruct c as [[] [] [] [] [] [] [] []]; reflexivity.
Qed.

Lemma mem_lower (cs : charset) (c : ascii) :
  mem true cs (lower_char c) = mem true cs c.
Proof.
  induction cs as [a | | | | a IHa b IHb]; cbn [mem].
  - now rewrite upper_lower_char.
  - apply is_digit_lower.
  - apply is_space_lower.
  - apply is_word_lower.
  - now rewrite IHa, IHb.
Qed.

Lemma toLowerCase_idempotent (s : string) :
  toLowerCase (toLowerCase s) = toLowerCase s.
Proof.
  induction s as [| c s IH]; [ reflexivity | ].
  cbn [toLowerCase]. now rewrite lower_lower_char, IH.
Qed.

Lemma length_toLowerCase (s : string) :
  String.length (toLowerCase s) = String.length s.
Proof.
  induction s as [| c s IH]; [ reflexivity | ].
  cbn [toLowerCase String.length]. now rewrite IH.
Qed.

Lemma substring_toLowerCase (n len : nat) (s : string) :
  String.substring n len (toLowerCase s)
  = toLowerCase (String.substring n len s).
Proof.
  revert n len. induction s as [| c s IH]; intros n len.
  - destruct n, len; reflexivity.
  - destruct n as [| n]; cbn [toLowerCase String.substring].
    + destruct len as [| len]; [ reflexivity | ].
      cbn [toLowerCase]. now rewrite IH.
    + apply IH.
Qed.

Lemma consumed_toLowerCase (s rest : string) :
  consumed (toLowerCase s) (toLowerCase rest) = toLowerCase (consumed s rest).
Proof.
  unfold consumed. rewrite !length_toLowerCase. apply substring_toLowerCase.
Qed.

Lemma drop_toLowerCase (n : nat) (s : string) :
  drop n (toLowerCase s) = toLowerCase (drop n s).
Proof.
  revert s. induction n as [| n IH]; intros s; [ reflexivity | ].
  destruct s as [| c s]; [ reflexivity | ].
  cbn [toLowerCase drop]. apply IH.
Qed.

Lemma toLowerCase_empty (s : string) : (toLowerCase s =? "") = (s =? "").
Proof.
  destruct s; reflexivity.
Qed.

Lemma lower_caps_reset (ns : list nat) (caps : captures) :
  reset ns (lower_caps caps) = lower_caps (reset ns caps).
Proof.
  unfold reset, lower_caps. rewrite map_app, map_map. reflexivity.
Qed.

Lemma capture_lower_caps (caps : captures) (n : nat) :
  capture (lower_caps caps) n = option_map toLowerCase (capture caps n).
Proof.
  induction caps as [| [m v] caps IH]; [ reflexivity | ].
  cbn [lower_caps map capture fst snd].
  destruct (Nat.eqb n m); [ reflexivity | exact IH ].
Qed.

(** With the flag [i], the matcher goes the same way on a text and on the
    text in lower case. *)
Lemma iterate_lower
  (body body' : string -> captures -> continuation -> option state)
  (greedy : bool) (k k' : continuation) :
  (forall s caps j j',
     (forall s1 c1,
        j' (toLowerCase s1) (lower_caps c1) = option_map lower_state (j s1 c1)) ->
     body' (toLowerCase s) (lower_caps caps) j'
     = option_map lower_state (body s caps j)) ->
  (forall s1 c1,
     k' (toLowerCase s1) (lower_caps c1) = option_map lower_state (k s1 c1)) ->
  forall fuel s caps,
    iterate body' greedy k' fuel (toLowerCase s) (lower_caps caps)
    = option_map lower_state (iterate body greedy k fuel s caps).
Proof.
  intros Hbody Hk. induction fuel as [| fuel IH]; intros s caps;
    [ reflexivity | ].
  cbn [iterate].
  rewrite (Hbody s caps
             (fun s1 c1 =>
                if (String.length s1 <? String.length s)%nat
                then iterate body greedy k fuel s1 c1 else None)).
  - rewrite Hk.
    destruct greedy.
    + destruct (body s caps _); [ reflexivity | ]. reflexivity.
    + destruct (k s caps); reflexivity.
  - intros s1 c1. rewrite !length_toLowerCase.
    destruct (String.length s1 <? String.length s)%nat; [ apply IH | ].
    reflexivity.
Qed.

Lemma run_lower (r : regex) :
  forall s caps (k k' : continuation),
    (forall s1 c1,
       k' (toLowerCase s1) (lower_caps c1) = option_map lower_state (k s1 c1)) ->
    run true r (toLowerCase s) (lower_caps caps) k'
    = option_map lower_state (run true r s caps k).
Proof.
  induction r as [| cs | r1 IH1 r2 IH2 | r1 IH1 r2 IH2 | g r1 IH1 | g r1 IH1
                  | n r1 IH1]; intros s caps k k' Hk; cbn [run].
  - apply Hk.
  - destruct s as [| c s]; [ reflexivity | ].
    cbn [toLowerCase]. rewrite mem_lower.
    destruct (mem true cs c); [ apply Hk | reflexivity ].
  - apply IH1. intros s1 c1. now apply IH2.
  - rewrite (IH1 s caps k k' Hk), (IH2 s caps k k' Hk).
    destruct (run true r1 s caps k); reflexivity.
  - rewrite length_toLowerCase.
    apply iterate_lower; [ | exact Hk ].
    intros s0 c0 j j' Hj. rewrite lower_caps_reset. now apply IH1.
  - rewrite lower_caps_reset.
    rewrite (IH1 s (reset (groups_of r1) caps)
               (fun s1 c1 =>
                  if (String.length s1 <? String.length s)%nat
                  then k s1 c1 else None)).
    + rewrite Hk. destruct g.
      * destruct (run true r1 s _ _); reflexivity.
      * destruct (k s caps); reflexivity.
    + intros s1 c1. rewrite !length_toLowerCase.
      destruct (String.length s1 <? String.length s)%nat; [ apply Hk | ].
      reflexivity.
  - apply IH1. intros s1 c1.
    rewrite consumed_toLowerCase.
    exact (Hk s1 ((n, Some (consumed s s1)) :: c1)).
Qed.

Lemma run_lower_top (r : regex) (s : string) :
  run true r (toLowerCase s) [] (fun rest caps => Some (rest, caps))
  = option_map lower_state
      (run true r s [] (fun rest caps => Some (rest, caps))).
Proof.
  apply (run_lower r s []
           (fun rest caps => Some (rest, caps))
           (fun rest caps => Some (rest, caps))).
  reflexivity.
Qed.

Lemma search_lower (r : regex) :
  forall s at_,
    search true r (toLowerCase s) at_
    = option_map (fun found : MatchResult * nat =>
                    (lower_match (fst found), snd found))
        (search true r s at_).
Proof.
  induction s as [| c s IH]; intros at_.
  - pose proof (run_lower_top r "") as E.
    change (toLowerCase "") with "" in E |- *. cbn [search].
    destruct (run true r "" [] (fun rest caps => Some (rest, caps)))
      as [[rest caps] |]; [ | reflexivity ].
    cbn [option_map lower_state fst snd] in E. injection E as _ E.
    cbn [option_map fst snd]. unfold lower_match.
    cbn [index matched groups]. rewrite <- E.
    unfold consumed. cbn [String.length Nat.sub String.substring].
    reflexivity.
  - pose proof (run_lower_top r (String c s)) as E.
    cbn [toLowerCase] in E |- *. cbn [search]. rewrite E.
    destruct (run true r (String c s) [] (fun rest caps => Some (rest, caps)))
      as [[rest caps] |].
    + cbn [option_map lower_state fst snd].
      pose proof (consumed_toLowerCase (String c s) rest) as Ec.
      cbn [toLowerCase] in Ec.
      rewrite Ec, length_toLowerCase. reflexivity.
    + cbn [option_map]. apply IH.
Qed.

Lemma exec_lower (re : t) (s : string) :
  ignoreCase re = true ->
  exec re (toLowerCase s)
  = (option_map lower_match (fst (exec re s)), snd (exec re s)).
Proof.
  intros Hi. unfold exec. rewrite length_toLowerCase, Hi.
  destruct (String.length s <? (if global re then lastIndex re else 0))%nat;
    [ reflexivity | ].
  rewrite drop_toLowerCase, search_lower.
  destruct (search true (source re)
              (drop (if global re then lastIndex re else 0) s)
              (if global re then lastIndex re else 0)) as [[m e] |];
    reflexivity.
Qed.

Lemma matchAll_from_lower (s : string) :
  forall fuel re,
    ignoreCase re = true ->
    matchAll_from fuel re (toLowerCase s)
    = map lower_match (matchAll_from fuel re s).
Proof.
  induction fuel as [| fuel IH]; intros re Hi; [ reflexivity | ].
  cbn [matchAll_from]. rewrite (exec_lower re s Hi).
  destruct (exec re s) as [[m |] re'] eqn:E; cbn [fst snd option_map map];
    [ | reflexivity ].
  cbn [lower_match matched]. rewrite toLowerCase_empty.
  f_equal. apply IH.
  assert (Hi' : ignoreCase re' = true).
  { unfold exec in E.
    destruct (String.length s <? (if global re then lastIndex re else 0))%nat;
      [ discriminate | ].
    destruct (search (ignoreCase re) (source re) _ _) as [[m0 e0] |];
      [ | discriminate ].
    injection E as _ <-. destruct (global re); exact Hi. }
  destruct (matched m =? ""); exact Hi'.
Qed.

(** The matches of a pattern with the flag [i] in a text in lower case are
    the matches in the text, in lower case. *)
Lemma matchAll_lower (s : string) (re : t) :
  ignoreCase re = true ->
  matchAll (toLowerCase s) re = map lower_match (matchAll s re).
Proof.
  intros Hi. unfold matchAll. rewrite length_toLowerCase.
  now apply matchAll_from_lower.
Qed.

(** *** The captures that are numbers hold no letter *)

Lemma digit_lower_char (c : ascii) : is_digit c = true -> lower_char c = c.
Proof.
  destruct c as [[] [] [] [] [] [] [] []]; intros H; try discriminate H;
    reflexivity.
Qed.

Lemma all_digits_toLowerCase (s : string) :
  all_digits s = true -> toLowerCase s = s.
Proof.
  induction s as [| c s IH]; [ reflexivity | ].
  cbn [all_digits toLowerCase]. intros H.
  apply andb_true_iff in H as [Hc Hs].
  now rewrite (digit_lower_char c Hc), (IH Hs).
Qed.

Lemma point_char (c : ascii) :
  Ascii.eqb (upper_char ".") (upper_char c) = true -> c = "."%char.
Proof.
  destruct c as [[] [] [] [] [] [] [] []]; intros H; try discriminate H;
    reflexivity.
Qed.

(** [(?:\.\d+)?] matches nothing, or a point and digits. *)
Lemma run_point_digits (s : string) (caps : captures) (k : continuation)
  (res : state) :
  run true (Opt true (Seq (Set_ (Char ".")) (Plus (Set_ Digit)))) s caps k
  = Some res ->
  exists mid s2,
    s = mid ++ s2 /\ toLowerCase mid = mid /\ k s2 caps = Some res.
Proof.
  intros H.
  change (or_try
            (run true (Set_ (Char ".")) s caps
               (fun s0 c0 =>
                  run true (Plus (Set_ Digit)) s0 c0
                    (fun s1 c1 =>
                       if (String.length s1 <? String.length s)%nat
                       then k s1 c1 else None)))
            (fun _ => k s caps) = Some res) in H.
  apply or_try_Some in H as [H | [_ H]]; [ | now exists "", s ].
  cbn [run mem] in H.
  destruct s as [| c s]; [ discriminate | ].
  destruct (Ascii.eqb (upper_char ".") (upper_char c)) eqn:Hc;
    [ | discriminate ].
  apply point_char in Hc. subst c.
  apply run_digits_plus in H as (d & ds & s2 & -> & Hds & H).
  destruct (String.length s2 <? _)%nat; [ | discriminate ].
  exists (String "." (String d ds)), s2.
  split; [ reflexivity | ]. split; [ | exact H ].
  cbn [toLowerCase]. f_equal.
  exact (all_digits_toLowerCase _ Hds).
Qed.

Lemma run_decimal_group_lower (n : nat) (s : string) (caps : captures)
  (k : continuation) (res : state) :
  run true (Group n decimal) s caps k = Some res ->
  exists x s1,
    toLowerCase x = x /\ k s1 ((n, Some x) :: caps) = Some res.
Proof.
  intros H.
  change (run true (Plus (Set_ Digit)) s caps
            (fun s1 c1 =>
               run true (Opt true (Seq (Set_ (Char ".")) (Plus (Set_ Digit))))
                 s1 c1
                 (fun s2 c2 => k s2 ((n, Some (consumed s s2)) :: c2)))
          = Some res) in H.
  apply run_digits_plus in H as (c & ds & s1 & -> & Hds & H).
  apply run_point_digits in H as (mid & s2 & -> & Hmid & H).
  exists (String c ds ++ mid), s2.
  rewrite <- append_assoc, consumed_append in H.
  split; [ | exact H ].
  now rewrite toLowerCase_append, (all_digits_toLowerCase _ Hds), Hmid.
Qed.

Lemma sizePattern_size_lower (s : string) (res : state) :
  run true sizePattern s [] (fun rest caps => Some (rest, caps)) = Some res ->
  exists x, capture (snd res) 1 = Some x /\ toLowerCase x = x.
Proof.
  unfold sizePattern. cbn [Seqs]. intros H.
  do 6 (apply run_Seq in H as (? & ? & H & _ & _)).
  match type of H with
  | run _ (Seq (Group 1 decimal) ?r2) ?s0 ?c0 ?k = _ =>
      apply (run_decimal_group_lower 1 s0 c0 (fun s1 c1 => run true r2 s1 c1 k))
        in H as (num & s1 & Hnum & H)
  end.
  apply run_Seq in H as (s2 & c2 & H & _ & H2).
  apply run_Seq in H as (s3 & c3 & H & _ & H3).
  apply run_Seq in H as (s4 & c4 & H & _ & H4).
  apply run_Seq_Group in H as (s5 & c5 & H & _ & H5).
  cbn [run] in H. injection H as <-.
  exists num. split; [ | exact Hnum ].
  cbn [snd capture Nat.eqb].
  rewrite H5, H4, H3, H2; try (cbn; tauto); reflexivity.
Qed.

Lemma matchSize_lower (text : string) :
  Forall (fun m => matchSize (lower_match m) = matchSize m)
    (matchAll text (literal sizePattern true true)).
Proof.
  unfold matchAll. apply (matchAll_from_found _ sizePattern true);
    [ | reflexivity | reflexivity ].
  intros start m e H.
  apply search_found in H as (s1 & rest & _ & Hrun & _ & _).
  apply sizePattern_size_lower in Hrun as (x & H1 & Hx).
  cbn [snd] in H1.
  unfold matchSize, group. cbn [lower_match groups].
  rewrite !capture_lower_caps, H1. cbn [option_map]. rewrite Hx.
  destruct (capture (groups m) 2) as [u |]; cbn [option_map];
    [ now rewrite toLowerCase_idempotent | reflexivity ].
Qed.

Lemma nodeCounts_lower (text : string) :
  Forall (fun m => nodeCounts (lower_match m) = nodeCounts m)
    (matchAll text (literal nodePattern true true)).
Proof.
  unfold matchAll. apply (matchAll_from_found _ nodePattern true);
    [ | reflexivity | reflexivity ].
  intros start m e H.
  apply search_found in H as (s0 & rest & _ & Hrun & _ & _).
  unfold nodeCounts, group. cbn [lower_match groups matched].
  rewrite capture_lower_caps, toLowerCase_idempotent.
  apply nodePattern_num in Hrun as [(c & num & Hg & Hds) | Hg]; rewrite Hg;
    cbn [option_map]; [ | reflexivity ].
  rewrite (all_digits_toLowerCase _ Hds). reflexivity.
Qed.

Lemma negated_lower (text : string) (m : MatchResult) :
  negated (toLowerCase text) (lower_match m) = negated text m.
Proof.
  unfold negated, slice. cbn [lower_match index].
  now rewrite substring_toLowerCase, toLowerCase_idempotent.
Qed.

Lemma noneNegated_lower (text : string) (ms : list MatchResult) :
  noneNegated (toLowerCase text) (map lower_match ms) = noneNegated text ms.
Proof.
  induction ms as [| m ms IH]; [ reflexivity | ].
  cbn [map noneNegated]. now rewrite negated_lower, IH.
Qed.

Lemma firstDepth_lower (text : string) (keywords : list string) :
  firstDepth (toLowerCase text) keywords = firstDepth text keywords.
Proof.
  induction keywords as [| depth keywords IH]; [ reflexivity | ].
  cbn [firstDepth]. now rewrite toLowerCase_idempotent, IH.
Qed.

Lemma map_Forall_eq {A B : Type} (f g : A -> B) (l : list A) :
  Forall (fun x => f x = g x) l -> map f l = map g l.
Proof.
  induction 1 as [| x l Hx _ IH]; [ reflexivity | ].
  cbn [map]. now rewrite Hx, IH.
Qed.

Lemma flat_map_Forall_eq {A B : Type} (f g : A -> list B) (l : list A) :
  Forall (fun x => f x = g x) l -> flat_map f l = flat_map g l.
Proof.
  induction 1 as [| x l Hx _ IH]; [ reflexivity | ].
  cbn [flat_map]. now rewrite Hx, IH.
Qed.

(** The extractors on a text in lower case. *)
Lemma extractors_lower (text : string) :
  extractCancerType (toLowerCase text) = extractCancerType text
  /\ extractTumorSize (toLowerCase text) = extractTumorSize text
  /\ extractLymphNodes (toLowerCase text) = extractLymphNodes text
  /\ extractMetastasis (toLowerCase text) = extractMetastasis text
  /\ fst (test (literal liverInvasionPattern true true) (toLowerCase text))
     = fst (test (literal liverInvasionPattern true true) text)
  /\ firstDepth (toLowerCase text) depthKeywords
     = firstDepth text depthKeywords.
Proof.
  split; [ | split; [ | split; [ | split; [ | split ] ] ] ].
  - unfold extractCancerType. now rewrite toLowerCase_idempotent.
  - unfold extractTumorSize.
    rewrite matchAll_lower by reflexivity.
    rewrite map_map, (map_Forall_eq _ _ _ (matchSize_lower text)).
    reflexivity.
  - unfold extractLymphNodes.
    rewrite matchAll_lower by reflexivity.
    rewrite flat_map_concat_map, map_map, <- flat_map_concat_map.
    rewrite (flat_map_Forall_eq _ _ _ (nodeCounts_lower text)).
    reflexivity.
  - unfold extractMetastasis.
    rewrite matchAll_lower by reflexivity.
    now rewrite length_map, noneNegated_lower.
  - unfold test. rewrite exec_lower by reflexivity.
    destruct (exec (literal liverInvasionPattern true true) text)
      as [[m |] re']; reflexivity.
  - apply firstDepth_lower.
Qed.

(** X19.  The extraction ignores the case of the letters.  Two texts that are
    the same in lower case give the same cancer type, tumor size, node
    count and metastasis, with the same confidence, and the same features,
    hence the same stage. *)
Theorem extraction_ignores_letter_case (text1 text2 : string) (p : Processor) :
  toLowerCase text1 = toLowerCase text2 ->
  extractCancerType text1 = extractCancerType text2
  /\ extractTumorSize text1 = extractTumorSize text2
  /\ extractLymphNodes text1 = extractLymphNodes text2
  /\ extractMetastasis text1 = extractMetastasis text2
  /\ extractFeatures text1 p = extractFeatures text2 p.
Proof.
  intros Hsame.
  destruct (extractors_lower text1) as (A1 & B1 & C1 & D1 & E1 & F1).
  destruct (extractors_lower text2) as (A2 & B2 & C2 & D2 & E2 & F2).
  rewrite Hsame in A1, B1, C1, D1, E1, F1.
  assert (A : extractCancerType text1 = extractCancerType text2) by congruence.
  assert (B : extractTumorSize text1 = extractTumorSize text2) by congruence.
  assert (C : extractLymphNodes text1 = extractLymphNodes text2) by congruence.
  assert (D : extractMetastasis text1 = extractMetastasis text2) by congruence.
  repeat (split; [ assumption | ]).
  unfold extractFeatures, try_catch, ret. cbv zeta.
  rewrite A, B, C, D.
  rewrite <- E1, E2, <- F1, F2. reflexivity.
Qed.

Lemma witness_extraction_ignores_letter_case :
  extractFeatures "BREAST MASS MEASURING 35 MM, 2 Positive Lymph Nodes"
    newProcessor
  = extractFeatures "breast mass measuring 35 mm, 2 positive lymph nodes"
      newProcessor.
Proof.
  apply (extraction_ignores_letter_case
           "BREAST MASS MEASURING 35 MM, 2 Positive Lymph Nodes"
           "breast mass measuring 35 mm, 2 positive lymph nodes"
           newProcessor).
  reflexivity.
Defined.

(** ** The values of a staging *)

(** X20.  The components that [determineTNMStage] can return for a supported
    cancer type.  N is one of N0 to N3 and M is M0 or M1; the stage is one
    of eleven texts, never 'Not available'; T is one of six categories, or
    the member of [Object.prototype] that the depth names. *)
Theorem the_components_of_a_staging
  (cancerType : string) (f : MedicalFeatures) :
  supported cancerType ->
  let r := determineTNMStage cancerType f in
  In (N r) ["N0"; "N1"; "N2"; "N3"]
  /\ In (Staging.M r) ["M0"; "M1"]
  /\ In (stage r) allStages
  /\ stage r <> "Not available"
  /\ ((exists t, T r = Str t /\ In t ["T1"; "T1b"; "T2"; "T3"; "T4"; "Tx"])
      \/ (T r = Inherited (toLowerCase (tumor_depth f))
          /\ In (toLowerCase (tumor_depth f)) ["constructor"; "__proto__"])).
Proof.
  intros Hsup r. subst r.
  pose proof (stage_in_allStages cancerType f) as Hstage.
  destruct (supported_cases _ Hsup) as (stager & Hin & E).
  rewrite E in Hstage |- *. clear E.
  revert Hin. generalize (toLowerCase cancerType). intros name Hin.
  split; [ | split; [ | split; [ exact Hstage | split ] ] ].
  - clear Hstage. each_stager Hin; cbn [N];
      repeat match goal with
             | |- context [if ?c then _ else _] => destruct c
             end; simpl; tauto.
  - clear Hstage. each_stager Hin; cbn [Staging.M];
      destruct (distant_metastasis f); simpl; tauto.
  - clear Hstage. each_stager Hin; cbn [stage]; stage_cases f; discriminate.
  - clear Hstage.
    pose proof (no_upper_toLowerCase (tumor_depth f)) as Hkey.
    each_stager Hin; cbn [T];
      try (left;
           repeat match goal with
                  | |- context [if ?c then _ else _] => destruct c
                  end; (eexists; split; [ reflexivity | simpl; tauto ])).
    + revert Hkey. generalize (toLowerCase (tumor_depth f)). intros key Hkey.
      match goal with
      | |- context [get ?tbl ?key] =>
          destruct (lookup_cases tbl key Hkey)
            as [(v & Hown & ->) | [(_ & Hk & ->) | (_ & _ & ->)]]
      end.
      * left. own_cases Hown; eexists; (split; [ reflexivity | simpl; tauto ]).
      * right. auto.
      * left. eexists. split; [ reflexivity | simpl; tauto ].
    + revert Hkey. generalize (toLowerCase (tumor_depth f)). intros key Hkey.
      match goal with
      | |- context [get ?tbl ?key] =>
          destruct (lookup_cases tbl key Hkey)
            as [(v & Hown & ->) | [(_ & Hk & ->) | (_ & _ & ->)]]
      end.
      * left. own_cases Hown; eexists; (split; [ reflexivity | simpl; tauto ]).
      * right. auto.
      * left. eexists. split; [ reflexivity | simpl; tauto ].
Qed.

Lemma witness_the_components_of_a_staging :
  In (N (determineTNMStage "Oropharynx" localized)) ["N0"; "N1"; "N2"; "N3"].
Proof.
  apply (the_components_of_a_staging "Oropharynx" localized).
  unfold supported. simpl. tauto.
Defined.

(** X21.  Findings that are not a number.  Every test of a stager fails on NaN,
    so a tumor size that is NaN falls to the last T category of the size
    tests (T3 for breast and head and neck, T4 for lung, Tx for a
    gallbladder without liver invasion), and a node count that is NaN falls
    to the last N category of every stager. *)
Theorem findings_that_are_not_a_number (f : MedicalFeatures) :
  (tumor_size_cm f = NaN ->
   T (determineTNMStage "breast" f) = Str "T3"
   /\ T (determineTNMStage "lung" f) = Str "T4"
   /\ T (determineTNMStage "head and neck" f) = Str "T3"
   /\ (liver_invasion f = false ->
       T (determineTNMStage "gallbladder" f) = Str "Tx"))
  /\ (lymph_nodes_involved f = NaN ->
      N (determineTNMStage "gallbladder" f) = "N2"
      /\ N (determineTNMStage "esophageal" f) = "N3"
      /\ N (determineTNMStage "breast" f) = "N3"
      /\ N (determineTNMStage "lung" f) = "N2"
      /\ N (determineTNMStage "colorectal" f) = "N2"
      /\ N (determineTNMStage "head and neck" f) = "N3").
Proof.
  destruct (determineTNMStage_keys f) as (-> & -> & -> & -> & -> & ->).
  split.
  - intros Hsize.
    unfold stageBreastCancer, stageLungCancer, stageHeadNeckCancer,
      stageGallbladderCancer. cbn [T]. rewrite Hsize.
    repeat split. intros ->. reflexivity.
  - intros Hnodes.
    unfold stageGallbladderCancer, stageEsophagealCancer, stageBreastCancer,
      stageLungCancer, stageColorectalCancer, stageHeadNeckCancer.
    cbn [N]. rewrite Hnodes. repeat split.
Qed.

Lemma witness_findings_that_are_not_a_number :
  T (determineTNMStage "lung" (findings NaN NaN false false "")) = Str "T4"
  /\ N (determineTNMStage "head and neck" (findings NaN NaN false false ""))
     = "N3".
Proof.
  pose proof (findings_that_are_not_a_number
                (findings NaN NaN false false "")) as [Hsize Hnodes].
  split.
  - exact (proj1 (proj2 (Hsize eq_refl))).
  - exact (proj2 (proj2 (proj2 (proj2 (proj2 (Hnodes eq_refl)))))).
Defined.

(** ** The confidence scores *)

